(** * The page-layout stage of the processing pipeline

    A shallow embedding of [filters/page_layout/Filter.cpp]: the stage object
    (page-order options, selected order, parameter store) together with its
    persistence codec ([saveSettings] / [loadSettings]) and its default
    seeding ([loadDefaultSettings]).

    Conventions.
    - A C++ [int] is a [Z]; the one place where the code casts to
      [unsigned] writes the wrap-around out.
    - A C++ [double] is a binary64 [float].
    - A [QDomNode] / [QDomElement] is a nullable handle: [option] of a tree.
    - Methods that mutate the stage take the stage and return the new one. *)

From Stdlib Require Import Floats ZArith DecimalString DecimalZ.
From stdpp Require Import gmap strings list fin_maps.

Set Warnings "-inexact-float,-register-all".
Set Default Proof Using "Type".

Local Open Scope Z_scope.

(** ** The document tree (Qt's QDom classes, as far as the stage uses them) *)

Module QDom.

(** A node of the tree: an element with a tag, attributes and ordered
    children, or any other kind of node (text, comment, processing
    instruction, ...), of which the stage only ever looks at the name. *)
Inductive DomImpl : Type :=
| ElementImpl (tag : string) (attrs : gmap string string)
              (children : list DomImpl)
| OtherImpl (name : string).

(** Handles are nullable, as in Qt. *)
Definition QDomNode : Type := option DomImpl.
Definition QDomElement : Type := QDomNode.

Definition isNull (n : QDomNode) : bool :=
  match n with None => true | Some _ => false end.

Definition isElement (n : QDomNode) : bool :=
  match n with Some (ElementImpl _ _ _) => true | _ => false end.

Definition nodeName (n : QDomNode) : string :=
  match n with
  | Some (ElementImpl t _ _) => t
  | Some (OtherImpl s) => s
  | None => ""
  end.

(** [toElement] of a node that is not an element is the null element. *)
Definition toElement (n : QDomNode) : QDomElement :=
  if isElement n then n else None.

(** The children, in document order: what the
    [firstChild()] / [nextSibling()] walk visits. *)
Definition childNodes (n : QDomNode) : list DomImpl :=
  match n with Some (ElementImpl _ _ cs) => cs | _ => [] end.

(** First direct child whose node name is [name]; null when there is
    none (in particular on a null handle). *)
Definition namedItem (n : QDomNode) (name : string) : QDomNode :=
  List.find (fun c => String.eqb (nodeName (Some c)) name) (childNodes n).

(** Attribute value, the empty string when the attribute is absent or
    the element is null. *)
Definition attribute (e : QDomElement) (name : string) : string :=
  match e with
  | Some (ElementImpl _ a _) => default "" (a !! name)
  | _ => ""
  end.

Definition createElement (tag : string) : QDomElement :=
  Some (ElementImpl tag ∅ []).

Definition setAttribute (name value : string) (e : QDomElement)
  : QDomElement :=
  match e with
  | Some (ElementImpl t a cs) => Some (ElementImpl t (<[name := value]> a) cs)
  | _ => e
  end.

(** Appends [child] as the last child of [parent]; nothing happens when
    either of them is null or the parent cannot have children. *)
Definition appendChild (child : QDomNode) (parent : QDomNode) : QDomNode :=
  match parent, child with
  | Some (ElementImpl t a cs), Some c => Some (ElementImpl t a (cs ++ [c]))
  | _, _ => parent
  end.

Arguments isNull : simpl nomatch.
Arguments isElement : simpl nomatch.
Arguments nodeName : simpl nomatch.
Arguments toElement : simpl nomatch.
Arguments childNodes : simpl nomatch.
Arguments attribute : simpl nomatch.

End QDom.
Import QDom.

(** ** Types the stage receives from the rest of the project *)

(** Types whose declarations live in headers outside this file; the stage
    treats them as opaque. *)
Class Domain : Type := {
  PageId : Type;
  PageId_eq_dec :: EqDecision PageId;
  PageId_countable :: Countable PageId;
  (** [PageId::isNull] *)
  PageId_isNull : PageId -> bool;
  Alignment : Type;
  Guide : Type;
  ImageTransformation : Type;
}.

(** [Margins(left, top, right, bottom)] *)
Record Margins : Type := mkMargins {
  m_left : float;
  m_top : float;
  m_right : float;
  m_bottom : float;
}.

Record QRectF : Type := mkQRectF {
  xp : float; yp : float; w : float; h : float;
}.

Record QSizeF : Type := mkQSizeF {
  wd : float; ht : float;
}.

(** [QRectF()]: the null rectangle. *)
Definition QRectF_default : QRectF := mkQRectF 0 0 0 0.

(** [QSizeF()]: the invalid size. *)
Definition QSizeF_default : QSizeF := mkQSizeF (-1) (-1).

(** Modelled from the spec: physical resolution of a page (the class [Dpi]
    is declared outside this file). *)
Record Dpi : Type := mkDpi {
  horizontal : Z;
  vertical : Z;
}.

(** Modelled from the spec: the units a length can be configured in; the
    stage itself only names [MILLIMETRES]. *)
Inductive Units : Type := PIXELS | MILLIMETRES | CENTIMETRES | INCHES.

Section Types.
Context `{Domain}.

(** The per-page record, with the fields in the order of the constructor
    call in [loadDefaultSettings]. *)
Record Params : Type := mkParams {
  hardMarginsMM : Margins;
  pageRect : QRectF;
  contentRect : QRectF;
  contentSizeMM : QSizeF;
  alignment : Alignment;
  autoMargins : bool;
}.

Record ImageMetadata : Type := mkImageMetadata {
  dpi : Dpi;
}.

Record PageInfo : Type := mkPageInfo {
  PageInfo_id : PageId;
  metadata : ImageMetadata;
}.

(** [DefaultParams::PageLayoutParams] *)
Record PageLayoutParams : Type := mkPageLayoutParams {
  getHardMargins : Margins;
  getAlignment : Alignment;
  isAutoMargins : bool;
}.

(** The value [DefaultParamsProvider::getInstance()->getParams()]
    returns; the process-wide provider is passed explicitly. *)
Record DefaultParams : Type := mkDefaultParams {
  getUnits : Units;
  getPageLayoutParams : PageLayoutParams;
}.

(** [ProjectWriter]: [enumPages] calls back once per page of the
    project, with the page and the numeric id it is saved under. *)
Definition ProjectWriter : Type := list (PageId * Z).

Definition enumPages {A : Type} (writer : ProjectWriter)
    (callback : PageId -> Z -> A -> A) (a : A) : A :=
  foldl (fun acc '(page_id, numeric_id) => callback page_id numeric_id acc)
        a writer.

(** [ProjectReader]: [pageId] resolves a numeric id, to the null page id
    when it is unknown. *)
Record ProjectReader : Type := mkProjectReader {
  pageId : Z -> PageId;
}.

(** [AbstractRelinker], as the store sees it. *)
Record AbstractRelinker : Type := mkRelinker {
  remap : PageId -> PageId;
}.
End Types.

(** Functions implemented outside this file that the stage calls. *)
Class Collaborators `{Domain} : Type := {
  (** [QString::number(int)], through [setAttribute(name, int)] *)
  QString_number : Z -> string;
  (** [QString::toInt(&ok)]; [None] is [ok == false] *)
  QString_toInt : string -> option Z;
  (** [Params::toXml(doc, name)] and [Params(const QDomElement&)] *)
  Params_toXml : Params -> string -> QDomElement;
  Params_fromXml : QDomElement -> Params;
  (** [Guide::toXml(doc, name)] and [Guide(const QDomElement&)] *)
  Guide_toXml : Guide -> string -> QDomElement;
  Guide_fromXml : QDomElement -> Guide;
  (** [UnitsConverter(dpi).convert(horizontal, vertical, from, to)]; the
      two in-out arguments are returned as a pair *)
  UnitsConverter_convert : Dpi -> float -> float -> Units -> Units
                           -> float * float;
  (** [Utils::calcRectSizeMM] *)
  Utils_calcRectSizeMM : ImageTransformation -> QRectF -> QSizeF;
  (** the record the store creates when a content size arrives for a page
      that has none *)
  Settings_newItem : QSizeF -> Params;
  (** [tr]: translation of a user-visible label *)
  tr : string -> string;
}.

(** ** The parameter store ([Settings], implemented outside this file) *)

Module Settings.
Section Store.
Context `{Collaborators}.

(** Modelled from the spec: the state of the [Settings] store, whose class
    is not part of this file: one record per page key, the project-wide
    guide list and the middle-rect toggle. *)
Record Impl : Type := mkImpl {
  records : gmap PageId Params;
  guides : list Guide;
  showMiddleRect : bool;
}.

(** Modelled from the spec: the store as created, before anything is
    inserted ([new Settings] in the constructor of the stage). *)
Definition empty : Impl := mkImpl ∅ [] false.

(** Modelled from the spec: [Settings::clear] empties the mapping and the
    guide list and resets the toggle. *)
Definition clear (s : Impl) : Impl := empty.

(** Modelled from the spec: [Settings::getPageParams] returns a copy of
    the record if present, else nothing. *)
Definition getPageParams (s : Impl) (page_id : PageId) : option Params :=
  records s !! page_id.

(** Modelled from the spec: [Settings::setPageParams] inserts or
    overwrites the record of the page. *)
Definition setPageParams (page_id : PageId) (params : Params) (s : Impl)
  : Impl :=
  mkImpl (<[page_id := params]> (records s)) (guides s) (showMiddleRect s).

(** Modelled from the spec: [Settings::isParamsNull] is true iff no record
    exists for the key. *)
Definition isParamsNull (s : Impl) (page_id : PageId) : bool :=
  match records s !! page_id with None => true | Some _ => false end.

(** Modelled from the spec: [Settings::isShowingMiddleRectEnabled] and
    [Settings::enableShowingMiddleRect] read and write the toggle. *)
Definition isShowingMiddleRectEnabled (s : Impl) : bool := showMiddleRect s.

Definition enableShowingMiddleRect (state : bool) (s : Impl) : Impl :=
  mkImpl (records s) (guides s) state.

(** Modelled from the spec: [guides().emplace_back(el)] on the guide list
    the store hands out by reference. *)
Definition guides_emplace_back (g : Guide) (s : Impl) : Impl :=
  mkImpl (records s) (guides s ++ [g]) (showMiddleRect s).

(** Modelled from the spec: [Settings::setContentSizeMM] updates only the
    content size of an existing record, or of one created on demand. *)
Definition setContentSizeMM (page_id : PageId) (size : QSizeF) (s : Impl)
  : Impl :=
  let item :=
    match records s !! page_id with
    | Some p => mkParams (hardMarginsMM p) (pageRect p) (contentRect p) size
                         (alignment p) (autoMargins p)
    | None => Settings_newItem size
    end in
  mkImpl (<[page_id := item]> (records s)) (guides s) (showMiddleRect s).

(** Modelled from the spec: [Settings::invalidateContentSize] resets the
    content size of the page's record to undefined and keeps the rest. *)
Definition invalidateContentSize (page_id : PageId) (s : Impl) : Impl :=
  mkImpl (alter (fun p => mkParams (hardMarginsMM p) (pageRect p)
                                   (contentRect p) QSizeF_default
                                   (alignment p) (autoMargins p))
                page_id (records s))
         (guides s) (showMiddleRect s).

(** Modelled from the spec: [Settings::removePagesMissingFrom] deletes
    every record whose key is absent from the sequence. *)
Definition removePagesMissingFrom (pages : list PageId) (s : Impl) : Impl :=
  mkImpl (filter (fun kp => kp.1 ∈ pages) (records s))
         (guides s) (showMiddleRect s).

(** Modelled from the spec: [Settings::performRelinking] re-inserts every
    record under its remapped key and drops it when that key is null; on
    a collision the last write wins. *)
Definition performRelinking (relinker : AbstractRelinker) (s : Impl) : Impl :=
  mkImpl (foldl (fun m '(old_key, p) =>
                   let new_key := remap relinker old_key in
                   if PageId_isNull new_key then m
                   else <[new_key := p]> m)
                ∅ (map_to_list (records s)))
         (guides s) (showMiddleRect s).

End Store.
End Settings.

(** ** The stage *)

Section Stage.
Context `{Collaborators}.

(** The three ordering strategies; each is built over the stage's own
    store, so the tag identifies it. *)
Inductive PageOrderProvider : Type :=
| OrderByWidthProvider
| OrderByHeightProvider
| OrderByDeviationProvider.

(** [PageOrderOption(name, provider)]; [None] is the null [ProviderPtr]. *)
Record PageOrderOption : Type := mkPageOrderOption {
  name : string;
  provider : option PageOrderProvider;
}.

(** The fields of [Filter]. [m_pages] is the project's page list as
    [toPageSequence(PAGE_VIEW)] shows it; [m_optionsWidget] records
    whether the widget was created. *)
Record Filter : Type := mkFilter {
  m_pages : list PageId;
  m_settings : Settings.Impl;
  m_optionsWidget : bool;
  m_pageOrderOptions : list PageOrderOption;
  m_selectedPageOrder : Z;
}.

Definition set_settings (s : Settings.Impl) (f : Filter) : Filter :=
  mkFilter (m_pages f) s (m_optionsWidget f) (m_pageOrderOptions f)
           (m_selectedPageOrder f).

(** [Filter::Filter]; [isGui] is [CommandLine::get().isGui()]. *)
Definition Filter_new (isGui : bool) (pages : list PageId) : Filter :=
  let default_order : option PageOrderProvider := None in
  let order_by_width := Some OrderByWidthProvider in
  let order_by_height := Some OrderByHeightProvider in
  let order_by_deviation := Some OrderByDeviationProvider in
  let options := [] in
  let options :=
    options ++ [mkPageOrderOption (tr "Natural order") default_order] in
  let options :=
    options ++ [mkPageOrderOption (tr "Order by increasing width")
                                  order_by_width] in
  let options :=
    options ++ [mkPageOrderOption (tr "Order by increasing height")
                                  order_by_height] in
  let options :=
    options ++ [mkPageOrderOption (tr "Order by decreasing deviation")
                                  order_by_deviation] in
  mkFilter pages Settings.empty isGui options 0.

(** [Filter::selected] *)
Definition selected (f : Filter) : Filter :=
  set_settings (Settings.removePagesMissingFrom (m_pages f) (m_settings f)) f.

(** [Filter::selectedPageOrder] *)
Definition selectedPageOrder (f : Filter) : Z := m_selectedPageOrder f.

(** The condition of the [assert] in [selectPageOrder]: the option [opt], cast
    to a 32-bit [unsigned], is below the size of the option list. *)
Definition selectPageOrder_assertion (opt : Z) (f : Filter) : bool :=
  (opt mod 2 ^ 32) <? Z.of_nat (length (m_pageOrderOptions f)).

(** [Filter::selectPageOrder]; [None] is the failed assertion. *)
Definition selectPageOrder (opt : Z) (f : Filter) : option Filter :=
  if selectPageOrder_assertion opt f
  then Some (mkFilter (m_pages f) (m_settings f) (m_optionsWidget f)
                      (m_pageOrderOptions f) opt)
  else None.

(** [Filter::pageOrderOptions] *)
Definition pageOrderOptions (f : Filter) : list PageOrderOption :=
  m_pageOrderOptions f.

(** [Filter::performRelinking] *)
Definition performRelinking (relinker : AbstractRelinker) (f : Filter)
  : Filter :=
  set_settings (Settings.performRelinking relinker (m_settings f)) f.

(** [Filter::writePageSettings] *)
Definition writePageSettings (f : Filter) (filter_el : QDomElement)
    (page_id : PageId) (numeric_id : Z) : QDomElement :=
  match Settings.getPageParams (m_settings f) page_id with
  | None => filter_el
  | Some params =>
      let page_el := createElement "page" in
      let page_el := setAttribute "id" (QString_number numeric_id) page_el in
      let page_el := appendChild (Params_toXml params "params") page_el in
      appendChild page_el filter_el
  end.

(** [Filter::saveSettings] *)
Definition saveSettings (writer : ProjectWriter) (f : Filter) : QDomElement :=
  let filter_el := createElement "page-layout" in
  let filter_el :=
    setAttribute "showMiddleRect"
      (if Settings.isShowingMiddleRectEnabled (m_settings f)
       then "1" else "0")
      filter_el in
  let filter_el :=
    match Settings.guides (m_settings f) with
    | [] => filter_el
    | _ :: _ =>
        let guides_el :=
          foldl (fun guides_el guide =>
                   appendChild (Guide_toXml guide "guide") guides_el)
                (createElement "guides") (Settings.guides (m_settings f)) in
        appendChild guides_el filter_el
    end in
  enumPages writer
    (fun page_id numeric_id filter_el =>
       writePageSettings f filter_el page_id numeric_id)
    filter_el.

(** One turn of the guide loop of [loadSettings]. *)
Definition loadSettings_guide (s : Settings.Impl) (node : DomImpl)
  : Settings.Impl :=
  if negb (isElement (Some node))
     || negb (String.eqb (nodeName (Some node)) "guide")
  then s
  else Settings.guides_emplace_back (Guide_fromXml (toElement (Some node))) s.

(** One turn of the page loop of [loadSettings]. *)
Definition loadSettings_page (reader : ProjectReader) (s : Settings.Impl)
    (node : DomImpl) : Settings.Impl :=
  if negb (isElement (Some node)) then s
  else if negb (String.eqb (nodeName (Some node)) "page") then s
  else
    let el := toElement (Some node) in
    match QString_toInt (attribute el "id") with
    | None => s
    | Some id =>
        let page_id := pageId reader id in
        if PageId_isNull page_id then s
        else
          let params_el := toElement (namedItem el "params") in
          if isNull params_el then s
          else Settings.setPageParams page_id (Params_fromXml params_el) s
    end.

(** [Filter::loadSettings] *)
Definition loadSettings (reader : ProjectReader) (filters_el : QDomElement)
    (f : Filter) : Filter :=
  let s := Settings.clear (m_settings f) in
  let filter_el := toElement (namedItem filters_el "page-layout") in
  let s :=
    Settings.enableShowingMiddleRect
      (String.eqb (attribute filter_el "showMiddleRect") "1") s in
  let guides_el := toElement (namedItem filter_el "guides") in
  let s :=
    if negb (isNull guides_el)
    then foldl loadSettings_guide s (childNodes guides_el)
    else s in
  let s := foldl (loadSettings_page reader) s (childNodes filter_el) in
  set_settings s f.

(** [Filter::setContentBox] *)
Definition setContentBox (page_id : PageId) (xform : ImageTransformation)
    (content_rect : QRectF) (f : Filter) : Filter :=
  let content_size_mm := Utils_calcRectSizeMM xform content_rect in
  set_settings (Settings.setContentSizeMM page_id content_size_mm
                                          (m_settings f)) f.

(** [Filter::invalidateContentBox] *)
Definition invalidateContentBox (page_id : PageId) (f : Filter) : Filter :=
  set_settings (Settings.invalidateContentSize page_id (m_settings f)) f.

(** [Filter::loadDefaultSettings] *)
Definition loadDefaultSettings (defaultParams : DefaultParams)
    (page_info : PageInfo) (f : Filter) : Filter :=
  if negb (Settings.isParamsNull (m_settings f) (PageInfo_id page_info))
  then f
  else
    let pageLayoutParams := getPageLayoutParams defaultParams in
    let unitsConverter :=
      UnitsConverter_convert (dpi (metadata page_info)) in
    let margins := getHardMargins pageLayoutParams in
    let leftMargin := m_left margins in
    let topMargin := m_top margins in
    let rightMargin := m_right margins in
    let bottomMargin := m_bottom margins in
    let '(leftMargin, topMargin) :=
      unitsConverter leftMargin topMargin
                     (getUnits defaultParams) MILLIMETRES in
    let '(rightMargin, bottomMargin) :=
      unitsConverter rightMargin bottomMargin
                     (getUnits defaultParams) MILLIMETRES in
    set_settings
      (Settings.setPageParams (PageInfo_id page_info)
         (mkParams (mkMargins leftMargin topMargin rightMargin bottomMargin)
                   QRectF_default QRectF_default QSizeF_default
                   (getAlignment pageLayoutParams)
                   (isAutoMargins pageLayoutParams))
         (m_settings f))
      f.

(** The calls that change the stage, and a run of such calls. *)
Inductive Op : Type :=
| OpSelected
| OpSelectPageOrder (opt : Z)
| OpPerformRelinking (relinker : AbstractRelinker)
| OpLoadSettings (reader : ProjectReader) (filters_el : QDomElement)
| OpSetContentBox (page_id : PageId) (xform : ImageTransformation)
                  (content_rect : QRectF)
| OpInvalidateContentBox (page_id : PageId)
| OpLoadDefaultSettings (defaultParams : DefaultParams)
                        (page_info : PageInfo).

Definition step (op : Op) (f : Filter) : option Filter :=
  match op with
  | OpSelected => Some (selected f)
  | OpSelectPageOrder opt => selectPageOrder opt f
  | OpPerformRelinking relinker => Some (performRelinking relinker f)
  | OpLoadSettings reader filters_el =>
      Some (loadSettings reader filters_el f)
  | OpSetContentBox page_id xform content_rect =>
      Some (setContentBox page_id xform content_rect f)
  | OpInvalidateContentBox page_id => Some (invalidateContentBox page_id f)
  | OpLoadDefaultSettings defaultParams page_info =>
      Some (loadDefaultSettings defaultParams page_info f)
  end.

Fixpoint run (ops : list Op) (f : Filter) : option Filter :=
  match ops with
  | [] => Some f
  | op :: ops' =>
      match step op f with
      | Some f' => run ops' f'
      | None => None
      end
  end.

End Stage.

(** ** A reference instance of the collaborators

    A small, executable stand-in for the classes the stage talks to: page
    ids are image paths (the empty path is the null id), numbers are
    printed in decimal, a [double] is written as its binary64 mantissa and
    exponent, and lengths are converted linearly. It is what the concrete
    projects below run on. *)

Module Demo.

Definition domain : Domain :=
  Build_Domain string _ _ (fun p => String.eqb p "") Z (bool * float) unit.

#[local] Existing Instance domain.

Definition number (n : Z) : string := NilZero.string_of_int (Z.to_int n).

Definition parseZ (s : string) : option Z :=
  match NilZero.int_of_string s with
  | Some d => Some (Z.of_int d)
  | None => None
  end.

(** Decimal, with the range check of a 32-bit [int]. *)
Definition toInt (s : string) : option Z :=
  match parseZ s with
  | Some n => if (- 2 ^ 31 <=? n) && (n <? 2 ^ 31) then Some n else None
  | None => None
  end.

Definition setDouble (key : string) (x : float) (el : QDomElement)
  : QDomElement :=
  let '(m, e) :=
    match Prim2SF x with
    | S754_finite s m e => (if s then Z.neg m else Z.pos m, e)
    | _ => (0, 0)
    end in
  setAttribute (key +:+ "-exp") (number e) (setAttribute key (number m) el).

Definition getDouble (key : string) (el : QDomElement) : float :=
  match parseZ (attribute el key), parseZ (attribute el (key +:+ "-exp")) with
  | Some (Z.pos m), Some e => SF2Prim (S754_finite false m e)
  | Some (Z.neg m), Some e => SF2Prim (S754_finite true m e)
  | _, _ => 0%float
  end.

Definition marginsToXml (m : Margins) (tag : string) : QDomElement :=
  setDouble "left" (m_left m) (setDouble "top" (m_top m)
    (setDouble "right" (m_right m) (setDouble "bottom" (m_bottom m)
      (createElement tag)))).

Definition marginsFromXml (el : QDomElement) : Margins :=
  mkMargins (getDouble "left" el) (getDouble "top" el)
            (getDouble "right" el) (getDouble "bottom" el).

Definition rectToXml (r : QRectF) (tag : string) : QDomElement :=
  setDouble "x" (xp r) (setDouble "y" (yp r)
    (setDouble "width" (w r) (setDouble "height" (h r)
      (createElement tag)))).

Definition rectFromXml (el : QDomElement) : QRectF :=
  mkQRectF (getDouble "x" el) (getDouble "y" el)
           (getDouble "width" el) (getDouble "height" el).

Definition sizeToXml (s : QSizeF) (tag : string) : QDomElement :=
  setDouble "width" (wd s) (setDouble "height" (ht s) (createElement tag)).

Definition sizeFromXml (el : QDomElement) : QSizeF :=
  mkQSizeF (getDouble "width" el) (getDouble "height" el).

Definition paramsToXml (p : @Params domain) (tag : string) : QDomElement :=
  let el := createElement tag in
  let el := setAttribute "autoMargins"
              (if autoMargins p then "1" else "0") el in
  let el := setAttribute "alignment" (number (alignment p)) el in
  let el := appendChild (marginsToXml (hardMarginsMM p) "hardmargins") el in
  let el := appendChild (rectToXml (pageRect p) "pageRect") el in
  let el := appendChild (rectToXml (contentRect p) "contentRect") el in
  appendChild (sizeToXml (contentSizeMM p) "contentSize") el.

Definition paramsFromXml (el : QDomElement) : @Params domain :=
  mkParams (marginsFromXml (toElement (namedItem el "hardmargins")))
           (rectFromXml (toElement (namedItem el "pageRect")))
           (rectFromXml (toElement (namedItem el "contentRect")))
           (sizeFromXml (toElement (namedItem el "contentSize")))
           (default 0 (parseZ (attribute el "alignment")) : @Alignment domain)
           (String.eqb (attribute el "autoMargins") "1").

Definition guideToXml (g : @Guide domain) (tag : string) : QDomElement :=
  setAttribute "orientation" (if g.1 then "vert" else "hor")
    (setDouble "position" g.2 (createElement tag)).

Definition guideFromXml (el : QDomElement) : @Guide domain :=
  (String.eqb (attribute el "orientation") "vert", getDouble "position" el).

(** A length along an axis of the given resolution, to millimetres and
    back. *)
Definition toMM (dpi_axis : Z) (u : Units) (x : float) : float :=
  match u with
  | MILLIMETRES => x
  | CENTIMETRES => x * 10
  | INCHES => x * 25.4
  | PIXELS => x * 25.4 / of_uint63 (Uint63.of_Z dpi_axis)
  end%float.

Definition fromMM (dpi_axis : Z) (u : Units) (x : float) : float :=
  match u with
  | MILLIMETRES => x
  | CENTIMETRES => x / 10
  | INCHES => x / 25.4
  | PIXELS => x / 25.4 * of_uint63 (Uint63.of_Z dpi_axis)
  end%float.

Definition convert (d : Dpi) (horizontalValue verticalValue : float)
    (fromUnits toUnits : Units) : float * float :=
  (fromMM (horizontal d) toUnits (toMM (horizontal d) fromUnits
                                       horizontalValue),
   fromMM (vertical d) toUnits (toMM (vertical d) fromUnits verticalValue)).

Definition collaborators : @Collaborators domain :=
  @Build_Collaborators domain
    number toInt paramsToXml paramsFromXml guideToXml guideFromXml convert
    (fun _ r => mkQSizeF (w r) (h r))
    (fun size => mkParams (mkMargins 10 5 10 5) QRectF_default QRectF_default
                          size (0 : @Alignment domain) false)
    (fun s => s).

#[local] Existing Instance collaborators.

(** A record with 10 mm margins on every side, and a vertical guide. *)
Definition params10 : @Params domain :=
  mkParams (mkMargins 10 10 10 10) (mkQRectF 0 0 2480 3508)
           (mkQRectF 100 120 2200 3200) (mkQSizeF 186.3 271) (3 : @Alignment domain) false.

Definition guideV : @Guide domain := (true, 42.5%float).

(** A project of two pages, saved under the ids 3 and 4. *)
Definition writer2 : @ProjectWriter domain :=
  [("a.tif", 3); ("b.tif", 4)].

Definition reader2 : @ProjectReader domain :=
  @mkProjectReader domain
    (fun id => if id =? 3 then "a.tif" else if id =? 4 then "b.tif" else "").

(** The enclosing [filters] element of a project file. *)
Definition filters (children : list DomImpl) : QDomElement :=
  Some (ElementImpl "filters" ∅ children).

(** The stage of that project, as constructed and with a given store. *)
Definition init : @Filter domain :=
  @Filter_new domain collaborators true ["a.tif"; "b.tif"].

Definition stage (s : @Settings.Impl domain) : @Filter domain :=
  set_settings s init.

(** A store with a record for the first page, a guide, and the toggle on;
    and one whose only record belongs to a page that has left the project
    and was not pruned yet. *)
Definition store1 : @Settings.Impl domain :=
  Settings.mkImpl {[ "a.tif" := params10 ]} [guideV] true.

Definition storeStale : @Settings.Impl domain :=
  Settings.mkImpl {[ "c.tif" := params10 ]} [] true.

(** A [page] element as [saveSettings] writes it, one whose id is not a
    number, and two documents that differ by the latter. *)
Definition pageEl (numeric_id : Z) (p : @Params domain) : DomImpl :=
  ElementImpl "page" {[ "id" := number numeric_id ]}
              (option_list (paramsToXml p "params")).

Definition badPage : DomImpl :=
  ElementImpl "page" {[ "id" := "seven" ]}
              (option_list (paramsToXml params10 "params")).

Definition docWithBad : QDomElement :=
  filters [ElementImpl "page-layout" {[ "showMiddleRect" := "1" ]}
             [pageEl 3 params10; badPage; pageEl 4 params10]].

Definition docWithoutBad : QDomElement :=
  filters [ElementImpl "page-layout" {[ "showMiddleRect" := "1" ]}
             [pageEl 3 params10; pageEl 4 params10]].

(** Defaults of half an inch on every side, and the first page scanned at
    300 dpi. *)
Definition halfInch : @DefaultParams domain :=
  mkDefaultParams INCHES
    (mkPageLayoutParams (mkMargins 0.5 0.5 0.5 0.5)
                        (1 : @Alignment domain) true).

Definition pageA300 : @PageInfo domain :=
  mkPageInfo ("a.tif" : @PageId domain) (mkImageMetadata (mkDpi 300 300)).

(** A run of calls on the stage, and the stage it ends in. *)
Definition calls : list (@Op domain) :=
  [ OpLoadDefaultSettings halfInch pageA300;
    OpSelectPageOrder 2;
    OpSetContentBox ("b.tif" : @PageId domain) (tt : @ImageTransformation domain)
                    (mkQRectF 100 120 2200 3200);
    OpInvalidateContentBox ("a.tif" : @PageId domain);
    OpLoadSettings reader2 docWithBad;
    OpPerformRelinking (@mkRelinker domain (fun k => k));
    OpSelected ].

Definition afterCalls : @Filter domain :=
  Eval vm_compute in default init (run calls init).

End Demo.

(** ** What the codec writes, in the words of the specification *)

Section Codec.
Context `{Collaborators}.

(** The page child written for one enumerated page: none when the store
    has no record for the page, else a [page] element carrying the numeric
    id and the serialized record. *)
Definition pageElement (f : Filter) (entry : PageId * Z) : option DomImpl :=
  match Settings.getPageParams (m_settings f) entry.1 with
  | None => None
  | Some params =>
      Some (ElementImpl "page" {[ "id" := QString_number entry.2 ]}
                        (option_list (Params_toXml params "params")))
  end.

(** The optional guides container: omitted when there is no guide. *)
Definition guidesElement (f : Filter) : list DomImpl :=
  match Settings.guides (m_settings f) with
  | [] => []
  | _ :: _ =>
      [ElementImpl "guides" ∅
         (omap (fun g => Guide_toXml g "guide")
               (Settings.guides (m_settings f)))]
  end.

(** A record is well formed when its own serializer writes an element of
    the requested name from which it is read back unchanged; likewise for
    a guide. *)
Definition wellFormedParams (p : Params) : Prop :=
  isElement (Params_toXml p "params") = true
  ∧ nodeName (Params_toXml p "params") = "params"
  ∧ Params_fromXml (Params_toXml p "params") = p.

Definition wellFormedGuide (g : Guide) : Prop :=
  isElement (Guide_toXml g "guide") = true
  ∧ nodeName (Guide_toXml g "guide") = "guide"
  ∧ Guide_fromXml (Guide_toXml g "guide") = g.

Definition wellFormedStore (s : Settings.Impl) : Prop :=
  (∀ k p, Settings.records s !! k = Some p → wellFormedParams p)
  ∧ Forall wellFormedGuide (Settings.guides s).

(** The numeric id of an entry survives printing and parsing. *)
Definition idPrintsAndParses (entry : PageId * Z) : Prop :=
  QString_toInt (QString_number entry.2) = Some entry.2.

(** The reader resolves the numeric id of an entry back to its page. *)
Definition readsBack (reader : ProjectReader) (entry : PageId * Z) : bool :=
  bool_decide (pageId reader entry.2 = entry.1)
  && negb (PageId_isNull entry.1).

(** The page is enumerated by the writer under an id that the reader
    resolves back to it. *)
Definition restored (reader : ProjectReader) (writer : ProjectWriter)
    (k : PageId) : bool :=
  existsb (fun entry => bool_decide (entry.1 = k) && readsBack reader entry)
          writer.

(** The reader never resolves a written id to a different page. *)
Definition consistent (reader : ProjectReader) (writer : ProjectWriter)
    (s : Settings.Impl) : Prop :=
  ∀ entry, entry ∈ writer → is_Some (Settings.records s !! entry.1) →
    PageId_isNull (pageId reader entry.2) = true
    ∨ pageId reader entry.2 = entry.1.

(** A page child that [loadSettings] does not accept. *)
Definition malformedPage (reader : ProjectReader) (node : DomImpl) : Prop :=
  isElement (Some node) = true
  ∧ nodeName (Some node) = "page"
  ∧ (QString_toInt (attribute (Some node) "id") = None
     ∨ (∃ id, QString_toInt (attribute (Some node) "id") = Some id
              ∧ PageId_isNull (pageId reader id) = true)
     ∨ isNull (toElement (namedItem (Some node) "params")) = true).

(** The four options the constructor installs. *)
Definition fixedPageOrderOptions : list PageOrderOption :=
  [ mkPageOrderOption (tr "Natural order") None;
    mkPageOrderOption (tr "Order by increasing width")
                      (Some OrderByWidthProvider);
    mkPageOrderOption (tr "Order by increasing height")
                      (Some OrderByHeightProvider);
    mkPageOrderOption (tr "Order by decreasing deviation")
                      (Some OrderByDeviationProvider) ].

(** The record [loadDefaultSettings] builds for a page: both margin pairs
    go through the same converter call (page resolution, configured unit,
    millimetres), the rectangles and the content size are the default
    constructed ones, alignment and the auto-margins flag are the
    configured defaults. *)
Definition defaultRecord (defaultParams : DefaultParams)
    (page_info : PageInfo) : Params :=
  let to_mm h v :=
    UnitsConverter_convert (dpi (metadata page_info)) h v
                           (getUnits defaultParams) MILLIMETRES in
  let margins := getHardMargins (getPageLayoutParams defaultParams) in
  let left_top := to_mm (m_left margins) (m_top margins) in
  let right_bottom := to_mm (m_right margins) (m_bottom margins) in
  mkParams (mkMargins left_top.1 left_top.2 right_bottom.1 right_bottom.2)
           QRectF_default QRectF_default QSizeF_default
           (getAlignment (getPageLayoutParams defaultParams))
           (isAutoMargins (getPageLayoutParams defaultParams)).

(** What reading back the [page] element of one enumerated page does to
    the store: nothing when the page had no record or its id resolves to
    the null page, else the record is stored under the resolved page. *)
Definition restoreEntry (reader : ProjectReader) (f : Filter)
    (s : Settings.Impl) (entry : PageId * Z) : Settings.Impl :=
  match Settings.getPageParams (m_settings f) entry.1 with
  | None => s
  | Some params =>
      if PageId_isNull (pageId reader entry.2) then s
      else Settings.setPageParams (pageId reader entry.2) params s
  end.

(** Modelled from the spec: the units converter, whose arithmetic is not
    part of this file, is linear; from inches to millimetres it multiplies
    by 25.4 on both axes, whatever the resolution. *)
Definition convertsInchesLinearly : Prop :=
  ∀ d h v,
    UnitsConverter_convert d h v INCHES MILLIMETRES
    = (h * 25.4, v * 25.4)%float.

(** [a] and [b] differ by at most [eps]. *)
Definition near (eps a b : float) : bool :=
  (abs (a - b) <=? eps)%float.

End Codec.

(** ** What the codec reads, as functions of the document *)

Section Reading.
Context `{Collaborators}.

(** The page and the record a child of the [page-layout] element
    contributes to the store, if it is accepted by the page loop of
    [loadSettings]. *)
Definition acceptedPage (reader : ProjectReader) (node : DomImpl)
  : option (PageId * Params) :=
  if isElement (Some node) && String.eqb (nodeName (Some node)) "page"
  then
    match QString_toInt (attribute (Some node) "id") with
    | None => None
    | Some id =>
        if PageId_isNull (pageId reader id) then None
        else if isNull (toElement (namedItem (Some node) "params")) then None
        else Some (pageId reader id,
                   Params_fromXml (toElement (namedItem (Some node) "params")))
    end
  else None.

(** Inserting a list of entries in order, as repeated [setPageParams]. *)
Definition insertEntries (entries : list (PageId * Params))
    (m : gmap PageId Params) : gmap PageId Params :=
  foldl (fun m entry => <[entry.1 := entry.2]> m) m entries.

(** The children of the guides container that the guide loop accepts. *)
Definition isGuideElement (node : DomImpl) : bool :=
  isElement (Some node) && String.eqb (nodeName (Some node)) "guide".

(** The guides read from the [page-layout] element: those of the
    [guide] element children of the first child named [guides], provided
    that child is an element. *)
Definition loadedGuides (filter_el : QDomElement) : list Guide :=
  List.map (fun c => Guide_fromXml (Some c))
    (List.filter isGuideElement
       (childNodes (toElement (namedItem filter_el "guides")))).

(** A child of the [page-layout] element that is neither a [page]
    element nor named [guides]. *)
Definition ignoredNode (node : DomImpl) : Prop :=
  nodeName (Some node) ≠ "guides"
  ∧ (isElement (Some node) = false ∨ nodeName (Some node) ≠ "page").

(** The entry has a record in the store of the stage. *)
Definition hasRecord (f : Filter) (entry : PageId * Z) : bool :=
  negb (Settings.isParamsNull (m_settings f) entry.1).

(** The argument of the last [selectPageOrder] among the calls, [0] (the
    value the constructor sets) when there is none. *)
Definition lastSelected (ops : list Op) : Z :=
  foldl (fun acc op =>
           match op with OpSelectPageOrder opt => opt | _ => acc end)
        0 ops.

(** The argument of a [selectPageOrder] call is a 32-bit [int]. *)
Definition intArgument (op : Op) : Prop :=
  match op with
  | OpSelectPageOrder opt => - 2 ^ 31 ≤ opt < 2 ^ 31
  | _ => True
  end.

(** [Filter::optionsWidget]: whether the returned pointer is non-null. *)
Definition optionsWidget (f : Filter) : bool := m_optionsWidget f.

End Reading.

(** ** More sample documents and stores *)

Module Samples.
Import Demo.

#[local] Existing Instance domain.
#[local] Existing Instance collaborators.

(** A record with 20 mm margins, and a comment node. *)
Definition params20 : @Params domain :=
  mkParams (mkMargins 20 20 20 20) (mkQRectF 0 0 2480 3508)
           (mkQRectF 100 120 2200 3200) (mkQSizeF 186.3 271)
           (3 : @Alignment domain) true.

Definition comment : DomImpl := OtherImpl "#comment".

(** A document in which id 3 occurs twice, with a comment in between and
    a guides container that also holds a comment. *)
Definition guidesEl : DomImpl :=
  ElementImpl "guides" ∅
    (option_list (guideToXml guideV "guide") ++ [comment]
     ++ option_list (guideToXml (false, 7%float) "guide")).

Definition docTwice : QDomElement :=
  filters [ElementImpl "page-layout" {[ "showMiddleRect" := "0" ]}
             [guidesEl; pageEl 3 params10; comment; pageEl 3 params20;
              pageEl 4 params10]].

Definition docTwiceWithoutComment : QDomElement :=
  filters [ElementImpl "page-layout" {[ "showMiddleRect" := "0" ]}
             [guidesEl; pageEl 3 params10; pageEl 3 params20;
              pageEl 4 params10]].

(** A store with a record of a project page and a record of a page that
    has left the project. *)
Definition storeMixed : @Settings.Impl domain :=
  Settings.mkImpl {[ "a.tif" := params10; "c.tif" := params20 ]}
                  [guideV] true.

(** The second page, scanned at 600 dpi, and defaults in millimetres. *)
Definition pageB600 : @PageInfo domain :=
  mkPageInfo ("b.tif" : @PageId domain) (mkImageMetadata (mkDpi 600 600)).

Definition fiveMM : @DefaultParams domain :=
  mkDefaultParams MILLIMETRES
    (mkPageLayoutParams (mkMargins 5 5 5 5) (2 : @Alignment domain) false).

End Samples.

(** ** Properties of the stage *)

Section StageProperties.
Context `{Collaborators}.

(** *** Page-order options *)

Lemma set_settings_pageOrderOptions s f :
  m_pageOrderOptions (set_settings s f) = m_pageOrderOptions f.
Proof. reflexivity. Qed.

Lemma Filter_new_pageOrderOptions isGui pages :
  pageOrderOptions (Filter_new isGui pages) = fixedPageOrderOptions.
Proof. reflexivity. Qed.

Lemma selectPageOrder_Some opt f f' :
  selectPageOrder opt f = Some f' →
  f' = mkFilter (m_pages f) (m_settings f) (m_optionsWidget f)
                (m_pageOrderOptions f) opt.
Proof.
  unfold selectPageOrder.
  destruct (selectPageOrder_assertion opt f); congruence.
Qed.

(** No call changes the option list. *)
Lemma step_pageOrderOptions op f f' :
  step op f = Some f' → m_pageOrderOptions f' = m_pageOrderOptions f.
Proof.
  destruct op; simpl; intros Hstep;
    try (injection Hstep as <-; reflexivity).
  - apply selectPageOrder_Some in Hstep. by subst f'.
  - injection Hstep as <-. unfold loadDefaultSettings.
    destruct (negb _); [done|].
    repeat destruct (UnitsConverter_convert _ _ _ _ _). done.
Qed.

Lemma run_pageOrderOptions ops f f' :
  run ops f = Some f' → m_pageOrderOptions f' = m_pageOrderOptions f.
Proof.
  revert f. induction ops as [|op ops IH]; intros f; simpl.
  - by intros [= <-].
  - destruct (step op f) as [f1|] eqn:Hstep; [|done].
    intros Hrun. rewrite (IH _ Hrun). by eapply step_pageOrderOptions.
Qed.

(** C7: the option list is fixed by the constructor: after any run of
    calls on the stage, [pageOrderOptions] still returns the four options
    Natural order, increasing width, increasing height, decreasing
    deviation, in this order, and the first one carries the null provider
    rather than a comparator. *)
Theorem pageOrderOptions_fixed isGui pages ops f :
  run ops (Filter_new isGui pages) = Some f →
  pageOrderOptions f = fixedPageOrderOptions
  ∧ length (pageOrderOptions f) = 4%nat
  ∧ provider <$> pageOrderOptions f
    = [None; Some OrderByWidthProvider; Some OrderByHeightProvider;
       Some OrderByDeviationProvider].
Proof.
  intros Hrun. apply run_pageOrderOptions in Hrun.
  unfold pageOrderOptions. rewrite Hrun. by repeat split.
Qed.

(** *** Selecting a page order *)

Lemma selectPageOrder_assertion_spec opt f :
  length (m_pageOrderOptions f) = 4%nat →
  - 2 ^ 31 ≤ opt < 2 ^ 31 →
  selectPageOrder_assertion opt f = true ↔ 0 ≤ opt < 4.
Proof.
  intros Hlen Hint. unfold selectPageOrder_assertion. rewrite Hlen.
  rewrite Z.ltb_lt. change (Z.of_nat 4) with 4.
  destruct (Z.neg_nonneg_cases opt) as [Hneg|Hpos].
  - assert (Hwrap : opt + 2 ^ 32 = opt mod 2 ^ 32)
      by (apply Z.mod_unique with (q := -1); lia).
    lia.
  - rewrite Z.mod_small; lia.
Qed.

(** C9: on a stage reached from construction, every [opt] with
    [0 <= opt < 4] passes the range assertion of [selectPageOrder];
    afterwards [selectedPageOrder] returns [opt] and every other field of
    the stage, the store included, is as before. A negative [int] fails
    the assertion, because of the cast to [unsigned]. *)
Theorem selectPageOrder_in_range isGui pages ops f opt :
  run ops (Filter_new isGui pages) = Some f →
  0 ≤ opt < 4 →
  selectPageOrder_assertion opt f = true
  ∧ (∃ f', selectPageOrder opt f = Some f'
           ∧ selectedPageOrder f' = opt
           ∧ m_settings f' = m_settings f
           ∧ m_pageOrderOptions f' = m_pageOrderOptions f
           ∧ m_pages f' = m_pages f
           ∧ m_optionsWidget f' = m_optionsWidget f)
  ∧ (∀ neg, - 2 ^ 31 ≤ neg < 0 →
            selectPageOrder_assertion neg f = false
            ∧ selectPageOrder neg f = None).
Proof.
  intros Hrun Hopt.
  assert (Hlen : length (m_pageOrderOptions f) = 4%nat).
  { by rewrite (run_pageOrderOptions _ _ _ Hrun). }
  assert (Hok : selectPageOrder_assertion opt f = true).
  { apply selectPageOrder_assertion_spec; [done|lia|done]. }
  split; [done|]. split.
  - unfold selectPageOrder. rewrite Hok. eexists. by repeat split.
  - intros neg Hneg.
    assert (Hno : selectPageOrder_assertion neg f = false).
    { destruct (selectPageOrder_assertion neg f) eqn:Hassert; [|done].
      apply selectPageOrder_assertion_spec in Hassert; [lia|done|lia]. }
    split; [done|]. unfold selectPageOrder. by rewrite Hno.
Qed.

(** *** Default seeding *)

Lemma loadDefaultSettings_present defaultParams page_info f :
  Settings.isParamsNull (m_settings f) (PageInfo_id page_info) = false →
  loadDefaultSettings defaultParams page_info f = f.
Proof. intros Hnull. unfold loadDefaultSettings. by rewrite Hnull. Qed.

Lemma isParamsNull_setPageParams page_id params s :
  Settings.isParamsNull (Settings.setPageParams page_id params s) page_id
  = false.
Proof.
  unfold Settings.isParamsNull, Settings.setPageParams. simpl.
  by rewrite lookup_insert_eq.
Qed.

Lemma loadDefaultSettings_seeded defaultParams page_info f :
  Settings.isParamsNull
    (m_settings (loadDefaultSettings defaultParams page_info f))
    (PageInfo_id page_info) = false.
Proof.
  unfold loadDefaultSettings.
  destruct (Settings.isParamsNull (m_settings f) (PageInfo_id page_info))
    eqn:Hnull; simpl; [|done].
  repeat destruct (UnitsConverter_convert _ _ _ _ _).
  apply isParamsNull_setPageParams.
Qed.

(** C3: [loadDefaultSettings] only seeds a page for which [isParamsNull]
    holds, and after it has run the page has a record; so a second call
    for the same page, whatever the defaults are by then, changes
    nothing. *)
Theorem loadDefaultSettings_idempotent defaultParams defaultParams'
    page_info f :
  loadDefaultSettings defaultParams' page_info
    (loadDefaultSettings defaultParams page_info f)
  = loadDefaultSettings defaultParams page_info f
  ∧ Settings.isParamsNull
      (m_settings (loadDefaultSettings defaultParams page_info f))
      (PageInfo_id page_info) = false
  ∧ (if Settings.isParamsNull (m_settings f) (PageInfo_id page_info)
     then True
     else loadDefaultSettings defaultParams page_info f = f).
Proof.
  split; [|split].
  - apply loadDefaultSettings_present, loadDefaultSettings_seeded.
  - apply loadDefaultSettings_seeded.
  - destruct (Settings.isParamsNull _ _) eqn:Hnull; [done|].
    by apply loadDefaultSettings_present.
Qed.

Lemma loadDefaultSettings_absent defaultParams page_info f :
  Settings.isParamsNull (m_settings f) (PageInfo_id page_info) = true →
  loadDefaultSettings defaultParams page_info f
  = set_settings
      (Settings.setPageParams (PageInfo_id page_info)
         (defaultRecord defaultParams page_info) (m_settings f)) f.
Proof.
  intros Hnull. unfold loadDefaultSettings, defaultRecord.
  rewrite Hnull. simpl.
  by repeat destruct (UnitsConverter_convert _ _ _ _ _).
Qed.

Lemma defaultRecord_half_inch defaultParams page_info :
  convertsInchesLinearly →
  getUnits defaultParams = INCHES →
  getHardMargins (getPageLayoutParams defaultParams)
  = mkMargins 0.5 0.5 0.5 0.5 →
  hardMarginsMM (defaultRecord defaultParams page_info)
  = mkMargins 12.7 12.7 12.7 12.7.
Proof.
  intros Hlinear Hunits Hmargins. unfold defaultRecord.
  rewrite Hunits, Hmargins, !Hlinear. reflexivity.
Qed.

(** C4: for a page without a record, [loadDefaultSettings] stores
    [defaultRecord]: margins converted to millimetres with one source
    unit, one target unit and the page's resolution for all four sides,
    undefined rectangles and content size, default alignment and
    auto-margins flag; no other page is touched. In particular, at 300 dpi
    with default margins of 0.5 inch and a converter that is linear from
    inches to millimetres, all four stored margins are the binary64 value
    of 12.7, hence within any tolerance of 12.7 mm. *)
Theorem loadDefaultSettings_record defaultParams page_info f :
  Settings.isParamsNull (m_settings f) (PageInfo_id page_info) = true →
  let f' := loadDefaultSettings defaultParams page_info f in
  let to_mm h v :=
    UnitsConverter_convert (dpi (metadata page_info)) h v
                           (getUnits defaultParams) MILLIMETRES in
  let margins := getHardMargins (getPageLayoutParams defaultParams) in
  Settings.getPageParams (m_settings f') (PageInfo_id page_info)
  = Some (defaultRecord defaultParams page_info)
  ∧ (∀ k, k ≠ PageInfo_id page_info →
          Settings.getPageParams (m_settings f') k
          = Settings.getPageParams (m_settings f) k)
  ∧ hardMarginsMM (defaultRecord defaultParams page_info)
    = mkMargins (to_mm (m_left margins) (m_top margins)).1
                (to_mm (m_left margins) (m_top margins)).2
                (to_mm (m_right margins) (m_bottom margins)).1
                (to_mm (m_right margins) (m_bottom margins)).2
  ∧ pageRect (defaultRecord defaultParams page_info) = QRectF_default
  ∧ contentRect (defaultRecord defaultParams page_info) = QRectF_default
  ∧ contentSizeMM (defaultRecord defaultParams page_info) = QSizeF_default
  ∧ alignment (defaultRecord defaultParams page_info)
    = getAlignment (getPageLayoutParams defaultParams)
  ∧ autoMargins (defaultRecord defaultParams page_info)
    = isAutoMargins (getPageLayoutParams defaultParams)
  ∧ (convertsInchesLinearly →
     dpi (metadata page_info) = mkDpi 300 300 →
     getUnits defaultParams = INCHES →
     margins = mkMargins 0.5 0.5 0.5 0.5 →
     let m := hardMarginsMM (defaultRecord defaultParams page_info) in
     m = mkMargins 12.7 12.7 12.7 12.7
     ∧ near 1e-9 (m_left m) 12.7 = true ∧ near 1e-9 (m_top m) 12.7 = true
     ∧ near 1e-9 (m_right m) 12.7 = true
     ∧ near 1e-9 (m_bottom m) 12.7 = true).
Proof.
  intros Hnull f' to_mm margins. subst f'.
  rewrite (loadDefaultSettings_absent _ _ _ Hnull).
  split; [|split; [|repeat (split; [reflexivity|])]].
  - unfold Settings.getPageParams. simpl. by rewrite lookup_insert_eq.
  - intros k Hk. unfold Settings.getPageParams. simpl.
    by rewrite lookup_insert_ne.
  - intros Hlinear Hdpi Hunits Hmargins m. subst m margins.
    rewrite (defaultRecord_half_inch _ _ Hlinear Hunits Hmargins).
    by repeat split.
Qed.

End StageProperties.

(** ** Properties of the codec *)

Section CodecProperties.
Context `{Collaborators}.

(** *** Writing *)

Lemma appendChild_null parent : appendChild None parent = parent.
Proof. by destruct parent as [[]|]. Qed.

Lemma foldl_appendChild {X : Type} (g : X → QDomNode) tag attrs cs l :
  foldl (fun el x => appendChild (g x) el) (Some (ElementImpl tag attrs cs)) l
  = Some (ElementImpl tag attrs (cs ++ omap g l)).
Proof.
  revert cs. induction l as [|x l IH]; intros cs; simpl.
  - by rewrite app_nil_r.
  - destruct (g x) as [c|]; simpl; [|apply IH].
    rewrite IH. by rewrite <- app_assoc.
Qed.

Lemma writePageSettings_appendChild f filter_el page_id numeric_id :
  writePageSettings f filter_el page_id numeric_id
  = appendChild (pageElement f (page_id, numeric_id)) filter_el.
Proof.
  unfold writePageSettings, pageElement. simpl.
  destruct (Settings.getPageParams (m_settings f) page_id) as [params|].
  - by destruct (Params_toXml params "params").
  - by rewrite appendChild_null.
Qed.

Lemma writePageSettings_absent f filter_el page_id numeric_id :
  Settings.getPageParams (m_settings f) page_id = None →
  writePageSettings f filter_el page_id numeric_id = filter_el.
Proof. intros Hnone. unfold writePageSettings. by rewrite Hnone. Qed.

Lemma enumPages_writePageSettings writer f filter_el :
  enumPages writer
    (fun page_id numeric_id el => writePageSettings f el page_id numeric_id)
    filter_el
  = foldl (fun el entry => appendChild (pageElement f entry) el)
          filter_el writer.
Proof.
  unfold enumPages. revert filter_el.
  induction writer as [|[page_id numeric_id] writer IH]; intros el; simpl.
  - done.
  - rewrite writePageSettings_appendChild. apply IH.
Qed.

(** The element [saveSettings] returns, child by child. *)
Lemma saveSettings_shape writer f :
  saveSettings writer f
  = Some (ElementImpl "page-layout"
            {[ "showMiddleRect" :=
                 if Settings.showMiddleRect (m_settings f)
                 then "1" else "0" ]}
            (guidesElement f ++ omap (pageElement f) writer)).
Proof.
  unfold saveSettings, guidesElement, Settings.isShowingMiddleRectEnabled.
  rewrite enumPages_writePageSettings.
  destruct (Settings.guides (m_settings f)) as [|g gs] eqn:Hguides.
  - unfold createElement. simpl setAttribute.
    by rewrite foldl_appendChild.
  - unfold createElement. rewrite foldl_appendChild. simpl setAttribute.
    simpl appendChild. by rewrite foldl_appendChild.
Qed.

Lemma pageElement_nodeName f entry c :
  pageElement f entry = Some c → nodeName (Some c) = "page".
Proof.
  unfold pageElement.
  destruct (Settings.getPageParams _ _); [|done]. by intros [= <-].
Qed.

Lemma find_pageElements f (writer : ProjectWriter) name :
  name ≠ "page" →
  List.find (fun c => String.eqb (nodeName (Some c)) name)
            (omap (pageElement f) writer) = None.
Proof.
  intros Hname. induction writer as [|entry writer IH]; simpl; [done|].
  destruct (pageElement f entry) as [c|] eqn:Hc; simpl; [|done].
  rewrite (pageElement_nodeName _ _ _ Hc).
  destruct (String.eqb_spec "page" name) as [Heq|_]; [congruence|done].
Qed.

Lemma filter_pageElements f (writer : ProjectWriter) :
  List.filter (fun c => String.eqb (nodeName (Some c)) "page")
              (omap (pageElement f) writer)
  = omap (pageElement f) writer.
Proof.
  induction writer as [|entry writer IH]; simpl; [done|].
  destruct (pageElement f entry) as [c|] eqn:Hc; simpl; [|done].
  rewrite (pageElement_nodeName _ _ _ Hc). simpl. f_equal. apply IH.
Qed.

(** C5: saving the empty store gives a [page-layout] element whose only
    content is [showMiddleRect="0"]. Whatever the store holds, there is no
    [guides] child when the guide list is empty, a page without a record
    adds nothing to the element, and the [page] children are exactly the
    elements of the enumerated pages that have a record. *)
Theorem saveSettings_omissions writer f :
  saveSettings writer (set_settings Settings.empty f)
  = Some (ElementImpl "page-layout" {[ "showMiddleRect" := "0" ]} [])
  ∧ (Settings.guides (m_settings f) = [] →
     namedItem (saveSettings writer f) "guides" = None
     ∧ childNodes (saveSettings writer f) = omap (pageElement f) writer)
  ∧ (∀ filter_el page_id numeric_id,
       Settings.getPageParams (m_settings f) page_id = None →
       writePageSettings f filter_el page_id numeric_id = filter_el)
  ∧ List.filter (fun c => String.eqb (nodeName (Some c)) "page")
                (childNodes (saveSettings writer f))
    = omap (pageElement f) writer
  ∧ (∀ page_id numeric_id,
       Settings.getPageParams (m_settings f) page_id = None →
       pageElement f (page_id, numeric_id) = None).
Proof.
  split; [|split; [|split; [|split]]].
  - rewrite saveSettings_shape. simpl. do 3 f_equal.
    induction writer as [|entry writer IH]; [done|]. simpl.
    unfold pageElement at 1, Settings.getPageParams. simpl.
    by rewrite lookup_empty.
  - intros Hguides. rewrite saveSettings_shape.
    unfold namedItem, guidesElement. rewrite Hguides. simpl.
    split; [|done]. by apply find_pageElements.
  - intros. by apply writePageSettings_absent.
  - rewrite saveSettings_shape. simpl.
    rewrite List.filter_app, filter_pageElements.
    unfold guidesElement. by destruct (Settings.guides _).
  - intros page_id numeric_id Hnone. unfold pageElement. simpl.
    by rewrite Hnone.
Qed.

(** *** Reading *)

Lemma loadSettings_guide_others s node :
  Settings.records (loadSettings_guide s node) = Settings.records s
  ∧ Settings.showMiddleRect (loadSettings_guide s node)
    = Settings.showMiddleRect s.
Proof. unfold loadSettings_guide. by destruct (_ || _). Qed.

Lemma loadSettings_page_others reader s node :
  Settings.guides (loadSettings_page reader s node) = Settings.guides s
  ∧ Settings.showMiddleRect (loadSettings_page reader s node)
    = Settings.showMiddleRect s.
Proof.
  unfold loadSettings_page.
  destruct (negb (isElement _)); [done|].
  destruct (negb (String.eqb _ _)); [done|].
  destruct (QString_toInt _); [|done].
  destruct (PageId_isNull _); [done|].
  by destruct (isNull _).
Qed.

Lemma foldl_loadSettings_guide_showMiddleRect s nodes :
  Settings.showMiddleRect (foldl loadSettings_guide s nodes)
  = Settings.showMiddleRect s.
Proof.
  revert s. induction nodes as [|node nodes IH]; intros s; simpl; [done|].
  rewrite IH. apply loadSettings_guide_others.
Qed.

Lemma foldl_loadSettings_page_others reader s nodes :
  Settings.guides (foldl (loadSettings_page reader) s nodes)
  = Settings.guides s
  ∧ Settings.showMiddleRect (foldl (loadSettings_page reader) s nodes)
    = Settings.showMiddleRect s.
Proof.
  revert s. induction nodes as [|node nodes IH]; intros s; simpl; [done|].
  destruct (IH (loadSettings_page reader s node)) as [-> ->].
  apply loadSettings_page_others.
Qed.

(** C6: [loadSettings] starts from the cleared store, so the store it
    leaves (records, guides and toggle) is the same whatever the store
    held before: it is determined by the reader and the document. *)
Theorem loadSettings_full_replace reader filters_el f1 f2 :
  m_settings (loadSettings reader filters_el f1)
  = m_settings (loadSettings reader filters_el f2)
  ∧ m_settings (loadSettings reader filters_el f1)
    = m_settings (loadSettings reader filters_el
                               (set_settings Settings.empty f1)).
Proof. split; reflexivity. Qed.

(** C8: after [loadSettings] the toggle is the comparison of the
    [showMiddleRect] attribute of the [page-layout] element with ["1"]:
    it is true exactly when that element exists and carries the attribute
    with the value ["1"], and false when the attribute is absent or has
    any other value. *)
Theorem loadSettings_showMiddleRect reader filters_el f :
  let filter_el := toElement (namedItem filters_el "page-layout") in
  let toggle :=
    Settings.showMiddleRect (m_settings (loadSettings reader filters_el f)) in
  toggle = String.eqb (attribute filter_el "showMiddleRect") "1"
  ∧ (toggle = true ↔
     ∃ tag attrs cs, filter_el = Some (ElementImpl tag attrs cs)
                     ∧ attrs !! "showMiddleRect" = Some "1")
  ∧ (toggle = false ↔
     ∀ tag attrs cs, filter_el = Some (ElementImpl tag attrs cs) →
                     attrs !! "showMiddleRect" ≠ Some "1").
Proof.
  intros filter_el toggle.
  assert (Htoggle :
    toggle = String.eqb (attribute filter_el "showMiddleRect") "1").
  { subst toggle filter_el. unfold loadSettings.
    cbn [m_settings set_settings].
    rewrite (proj2 (foldl_loadSettings_page_others _ _ _)).
    destruct (negb _); [|done].
    by rewrite foldl_loadSettings_guide_showMiddleRect. }
  assert (Htrue : toggle = true ↔
     ∃ tag attrs cs, filter_el = Some (ElementImpl tag attrs cs)
                     ∧ attrs !! "showMiddleRect" = Some "1").
  { rewrite Htoggle. clearbody filter_el.
    destruct filter_el as [[tag attrs cs|other]|]; simpl.
    - destruct (attrs !! "showMiddleRect") as [v|] eqn:Hv; simpl.
      + rewrite String.eqb_eq. split.
        * intros ->. by exists tag, attrs, cs.
        * intros (? & ? & ? & [= <- <- <-] & Hone). congruence.
      + split; [done|].
        intros (? & ? & ? & [= <- <- <-] & Hone). congruence.
    - split; [done|]. by intros (? & ? & ? & ? & _).
    - split; [done|]. by intros (? & ? & ? & ? & _). }
  split; [done|]. split; [done|].
  rewrite <- not_true_iff_false, Htrue. split.
  - intros Hno tag attrs cs Hel Hone. apply Hno. by exists tag, attrs, cs.
  - intros Hall (tag & attrs & cs & Hel & Hone). by eapply Hall.
Qed.

Lemma namedItem_absent (filters_el : QDomNode) name :
  (∀ c, c ∈ childNodes filters_el → nodeName (Some c) ≠ name) →
  namedItem filters_el name = None.
Proof.
  intros Hno. unfold namedItem.
  induction (childNodes filters_el) as [|c cs IH]; simpl; [done|].
  destruct (String.eqb_spec (nodeName (Some c)) name) as [Heq|_].
  - exfalso. eapply Hno; [|exact Heq]. by left.
  - apply IH. intros c' Hc'. apply Hno. by right.
Qed.

(** C10: when the [filters] element has no [page-layout] child element,
    that is when the lookup of that child yields the null element (by
    [namedItem_absent] this is so whenever no child has that name),
    [loadSettings] still returns and leaves the cleared store: no record,
    no guide, toggle off. *)
Theorem loadSettings_no_page_layout reader filters_el f :
  toElement (namedItem filters_el "page-layout") = None →
  m_settings (loadSettings reader filters_el f) = Settings.empty
  ∧ Settings.records (m_settings (loadSettings reader filters_el f)) = ∅
  ∧ Settings.guides (m_settings (loadSettings reader filters_el f)) = []
  ∧ Settings.showMiddleRect (m_settings (loadSettings reader filters_el f))
    = false.
Proof.
  intros Hnull.
  assert (Hstore :
    m_settings (loadSettings reader filters_el f) = Settings.empty).
  { unfold loadSettings. rewrite Hnull. reflexivity. }
  rewrite Hstore. by repeat split.
Qed.

(** *** Entries that are skipped *)

Lemma loadSettings_page_malformed reader s node :
  malformedPage reader node → loadSettings_page reader s node = s.
Proof.
  intros (Hel & Hname & Hbad). unfold loadSettings_page, toElement.
  rewrite Hel, Hname. simpl.
  destruct Hbad as [Hid|[(id & Hid & Hpage)|Hparams]].
  - by rewrite Hid.
  - by rewrite Hid, Hpage.
  - destruct (QString_toInt _); [|done].
    destruct (PageId_isNull _); [done|].
    unfold toElement in Hparams. by rewrite Hparams.
Qed.

Lemma find_app_skip {A : Type} (p : A → bool) pre x post :
  p x = false → List.find p (pre ++ x :: post) = List.find p (pre ++ post).
Proof.
  intros Hx. induction pre as [|y pre IH]; simpl.
  - by rewrite Hx.
  - by rewrite IH.
Qed.

(** C2: a [page] child whose id does not parse, or resolves to the null
    page, or that has no [params] child element, leaves the store exactly
    as it was when its turn comes, and the load ends in the store it
    would have reached had the entry not been in the document: the
    entries before and after it are processed as usual. *)
Theorem loadSettings_skips_malformed reader filters_el filters_el'
    tag attrs pre bad post f :
  toElement (namedItem filters_el "page-layout")
  = Some (ElementImpl tag attrs (pre ++ bad :: post)) →
  toElement (namedItem filters_el' "page-layout")
  = Some (ElementImpl tag attrs (pre ++ post)) →
  malformedPage reader bad →
  (∀ s, loadSettings_page reader s bad = s)
  ∧ loadSettings reader filters_el f = loadSettings reader filters_el' f.
Proof.
  intros Hel Hel' Hbad.
  split; [intros s; by apply loadSettings_page_malformed|].
  unfold loadSettings. rewrite Hel, Hel'. f_equal.
  unfold namedItem. cbn [childNodes attribute].
  rewrite find_app_skip.
  2:{ destruct Hbad as (_ & -> & _). reflexivity. }
  rewrite !foldl_app. cbn [foldl].
  by rewrite (loadSettings_page_malformed _ _ _ Hbad).
Qed.

(** *** Round trip *)

Lemma loadSettings_guide_wellFormed s g :
  wellFormedGuide g →
  foldl loadSettings_guide s (option_list (Guide_toXml g "guide"))
  = Settings.guides_emplace_back g s.
Proof.
  intros (Hel & Hname & Hback).
  destruct (Guide_toXml g "guide") as [c|] eqn:Hc; [|done].
  simpl. unfold loadSettings_guide, toElement.
  by rewrite Hel, Hname, Hback.
Qed.

Lemma foldl_loadSettings_guide_wellFormed s (gs : list Guide) :
  Forall wellFormedGuide gs →
  foldl loadSettings_guide s (omap (fun g => Guide_toXml g "guide") gs)
  = Settings.mkImpl (Settings.records s) (Settings.guides s ++ gs)
                    (Settings.showMiddleRect s).
Proof.
  intros Hwf. revert s.
  induction Hwf as [|g gs Hg _ IH]; intros s.
  - simpl. rewrite app_nil_r. by destruct s.
  - assert (Hcons : omap (fun g => Guide_toXml g "guide") (g :: gs)
                    = option_list (Guide_toXml g "guide")
                      ++ omap (fun g => Guide_toXml g "guide") gs).
    { simpl. by destruct (Guide_toXml g "guide"). }
    rewrite Hcons, foldl_app, (loadSettings_guide_wellFormed _ _ Hg), IH.
    simpl. by rewrite <- app_assoc.
Qed.

Lemma loadSettings_page_pageElement reader f s entry :
  (∀ p, Settings.records (m_settings f) !! entry.1 = Some p →
        wellFormedParams p) →
  idPrintsAndParses entry →
  foldl (loadSettings_page reader) s (option_list (pageElement f entry))
  = restoreEntry reader f s entry.
Proof.
  intros Hwf Hid. unfold pageElement, restoreEntry, Settings.getPageParams.
  destruct (Settings.records (m_settings f) !! entry.1) as [p|] eqn:Hp;
    [|done].
  destruct (Hwf p eq_refl) as (Hel & Hname & Hback).
  simpl. unfold loadSettings_page. simpl.
  rewrite lookup_singleton_eq. simpl. rewrite Hid.
  destruct (PageId_isNull (pageId reader entry.2)); [done|].
  destruct (Params_toXml p "params") as [c|] eqn:Hc; [|done].
  unfold namedItem. simpl. rewrite Hname. simpl.
  unfold toElement. by rewrite Hel, Hback.
Qed.

Lemma foldl_loadSettings_page_pageElements reader f s
    (writer : ProjectWriter) :
  (∀ k p, Settings.records (m_settings f) !! k = Some p →
          wellFormedParams p) →
  Forall idPrintsAndParses writer →
  foldl (loadSettings_page reader) s (omap (pageElement f) writer)
  = foldl (restoreEntry reader f) s writer.
Proof.
  intros Hwf Hids. revert s.
  induction Hids as [|entry writer Hid _ IH]; intros s; [done|].
  assert (Hcons : omap (pageElement f) (entry :: writer)
                  = option_list (pageElement f entry)
                    ++ omap (pageElement f) writer).
  { simpl. by destruct (pageElement f entry). }
  rewrite Hcons, foldl_app, loadSettings_page_pageElement; [|eauto|done].
  apply IH.
Qed.

Lemma restoreEntry_others reader f s entry :
  Settings.guides (restoreEntry reader f s entry) = Settings.guides s
  ∧ Settings.showMiddleRect (restoreEntry reader f s entry)
    = Settings.showMiddleRect s.
Proof.
  unfold restoreEntry. destruct (Settings.getPageParams _ _); [|done].
  by destruct (PageId_isNull _).
Qed.

Lemma foldl_restoreEntry_others reader f s (writer : ProjectWriter) :
  Settings.guides (foldl (restoreEntry reader f) s writer)
  = Settings.guides s
  ∧ Settings.showMiddleRect (foldl (restoreEntry reader f) s writer)
    = Settings.showMiddleRect s.
Proof.
  revert s. induction writer as [|entry writer IH]; intros s; [done|].
  simpl. destruct (IH (restoreEntry reader f s entry)) as [-> ->].
  apply restoreEntry_others.
Qed.

Lemma readsBack_null reader entry :
  PageId_isNull (pageId reader entry.2) = true →
  readsBack reader entry = false.
Proof.
  intros Hnull. unfold readsBack.
  destruct (decide (pageId reader entry.2 = entry.1)) as [Heq|Hne].
  - rewrite <- Heq, Hnull. apply andb_false_r.
  - by rewrite bool_decide_eq_false_2.
Qed.

Lemma readsBack_same reader entry :
  pageId reader entry.2 = entry.1 →
  readsBack reader entry = negb (PageId_isNull entry.1).
Proof.
  intros Hsame. unfold readsBack. by rewrite bool_decide_eq_true_2.
Qed.

(** The records after reading back all enumerated pages. *)
Lemma foldl_restoreEntry_lookup reader f (writer : ProjectWriter) s k :
  consistent reader writer (m_settings f) →
  Settings.records (foldl (restoreEntry reader f) s writer) !! k
  = match Settings.records (m_settings f) !! k with
    | Some p => if restored reader writer k then Some p
                else Settings.records s !! k
    | None => Settings.records s !! k
    end.
Proof.
  revert s. induction writer as [|entry writer IH]; intros s Hcons.
  - simpl. by destruct (Settings.records (m_settings f) !! k).
  - assert (Htail : consistent reader writer (m_settings f)).
    { intros e He. apply Hcons. by right. }
    simpl. rewrite (IH _ Htail). clear IH.
    unfold restoreEntry, Settings.getPageParams.
    destruct (Settings.records (m_settings f) !! entry.1) as [p|] eqn:Hp.
    + destruct (Hcons entry) as [Hnull|Hsame]; [by left|by eexists| |].
      * by rewrite Hnull, (readsBack_null _ _ Hnull), andb_false_r.
      * rewrite (readsBack_same _ _ Hsame), Hsame.
        destruct (PageId_isNull entry.1); simpl.
        -- by rewrite andb_false_r.
        -- rewrite andb_true_r.
           destruct (decide (entry.1 = k)) as [<-|Hne].
           ++ rewrite bool_decide_eq_true_2 by done. simpl.
              rewrite Hp, lookup_insert_eq.
              by destruct (restored reader writer entry.1).
           ++ rewrite bool_decide_eq_false_2 by done. simpl.
              by rewrite lookup_insert_ne.
    + destruct (decide (entry.1 = k)) as [<-|Hne].
      * by rewrite Hp.
      * by rewrite bool_decide_eq_false_2.
Qed.

Lemma Impl_eq (a b : Settings.Impl) :
  Settings.records a = Settings.records b →
  Settings.guides a = Settings.guides b →
  Settings.showMiddleRect a = Settings.showMiddleRect b →
  a = b.
Proof. destruct a, b. simpl. by intros -> -> ->. Qed.

Lemma foldl_loadSettings_page_guidesElement reader f s :
  foldl (loadSettings_page reader) s (guidesElement f) = s.
Proof.
  unfold guidesElement. by destruct (Settings.guides (m_settings f)).
Qed.

Lemma namedItem_guides_saved f (writer : ProjectWriter) tag attrs :
  namedItem (Some (ElementImpl tag attrs
                     (guidesElement f ++ omap (pageElement f) writer)))
            "guides"
  = head (guidesElement f).
Proof.
  unfold namedItem, guidesElement. simpl.
  destruct (Settings.guides (m_settings f)); simpl; [|done].
  by apply find_pageElements.
Qed.

(** What [loadSettings] leaves when it reads back what [saveSettings]
    wrote. *)
Lemma loadSettings_saveSettings reader (writer : ProjectWriter)
    filters_el f f0 :
  wellFormedStore (m_settings f) →
  Forall idPrintsAndParses writer →
  toElement (namedItem filters_el "page-layout") = saveSettings writer f →
  m_settings (loadSettings reader filters_el f0)
  = foldl (restoreEntry reader f)
          (Settings.mkImpl ∅ (Settings.guides (m_settings f))
                           (Settings.showMiddleRect (m_settings f)))
          writer.
Proof.
  intros [Hparams Hguides] Hids Hel.
  unfold loadSettings. rewrite Hel, saveSettings_shape.
  cbn [m_settings set_settings childNodes].
  rewrite foldl_app, namedItem_guides_saved.
  rewrite foldl_loadSettings_page_guidesElement.
  rewrite foldl_loadSettings_page_pageElements by done.
  f_equal. unfold Settings.enableShowingMiddleRect, Settings.clear.
  simpl attribute. rewrite lookup_singleton_eq. simpl default.
  assert (Htoggle :
    String.eqb (if Settings.showMiddleRect (m_settings f)
                then "1" else "0") "1"
    = Settings.showMiddleRect (m_settings f)).
  { by destruct (Settings.showMiddleRect (m_settings f)). }
  rewrite Htoggle. unfold guidesElement.
  destruct (Settings.guides (m_settings f)) as [|g gs] eqn:Hgs; [done|].
  rewrite <- Hgs. cbn [head toElement isElement isNull negb childNodes].
  rewrite foldl_loadSettings_guide_wellFormed; [done|].
  by rewrite Hgs.
Qed.

(** C1 (amended): reading back, as the [page-layout] child of the
    [filters] element, what [saveSettings] wrote for a store of
    well-formed records and guides restores the toggle and the guides, and
    exactly the records of the pages that the writer enumerates under an
    id the reader resolves back to the page, provided the reader resolves
    no written id to a different page. When every page that has a record
    is enumerated and resolved, the loaded store is the saved one. *)
Theorem saveSettings_loadSettings_round_trip reader
    (writer : ProjectWriter) filters_el f f0 :
  wellFormedStore (m_settings f) →
  Forall idPrintsAndParses writer →
  consistent reader writer (m_settings f) →
  toElement (namedItem filters_el "page-layout") = saveSettings writer f →
  let loaded := m_settings (loadSettings reader filters_el f0) in
  loaded
  = Settings.mkImpl
      (filter (fun kp => restored reader writer kp.1 = true)
              (Settings.records (m_settings f)))
      (Settings.guides (m_settings f))
      (Settings.showMiddleRect (m_settings f))
  ∧ ((∀ k, is_Some (Settings.records (m_settings f) !! k) →
           restored reader writer k = true) →
     loaded = m_settings f).
Proof.
  intros Hwf Hids Hcons Hel loaded.
  assert (Hloaded : loaded
    = Settings.mkImpl
        (filter (fun kp => restored reader writer kp.1 = true)
                (Settings.records (m_settings f)))
        (Settings.guides (m_settings f))
        (Settings.showMiddleRect (m_settings f))).
  { subst loaded. rewrite (loadSettings_saveSettings _ _ _ _ _ Hwf Hids Hel).
    apply Impl_eq.
    - apply map_eq. intros k.
      rewrite (foldl_restoreEntry_lookup _ _ _ _ _ Hcons).
      simpl. rewrite map_lookup_filter, lookup_empty.
      destruct (Settings.records (m_settings f) !! k) as [p|]; [|done].
      simpl. rewrite option_guard_decide.
      destruct (restored reader writer k); by case_decide.
    - by rewrite (proj1 (foldl_restoreEntry_others _ _ _ _)).
    - by rewrite (proj2 (foldl_restoreEntry_others _ _ _ _)). }
  split; [done|].
  intros Hall. rewrite Hloaded. apply Impl_eq; simpl; [|done|done].
  apply map_filter_id. intros k p Hk. apply Hall. by eexists.
Qed.

End CodecProperties.

(** ** Further properties of the codec *)

Section DocumentProperties.
Context `{Collaborators}.

(** *** The saved element *)

Lemma pageElement_id f entry c :
  pageElement f entry = Some c →
  attribute (Some c) "id" = QString_number entry.2.
Proof.
  unfold pageElement.
  destruct (Settings.getPageParams _ _); [|done].
  intros [= <-]. simpl. by rewrite lookup_singleton_eq.
Qed.

Lemma pageElements_ids f (writer : ProjectWriter) :
  List.map (fun c => attribute (Some c) "id") (omap (pageElement f) writer)
  = List.map (fun entry => QString_number entry.2)
             (List.filter (hasRecord f) writer).
Proof.
  induction writer as [|entry writer IH]; [done|].
  assert (Hcons : omap (pageElement f) (entry :: writer)
                  = option_list (pageElement f entry)
                    ++ omap (pageElement f) writer).
  { simpl. by destruct (pageElement f entry). }
  rewrite Hcons, List.map_app, IH. clear Hcons IH.
  cbn [List.filter]. unfold hasRecord at 2, Settings.isParamsNull.
  destruct (pageElement f entry) as [c|] eqn:Hc.
  - pose proof (pageElement_id _ _ _ Hc) as Hid.
    unfold pageElement, Settings.getPageParams in Hc.
    destruct (Settings.records (m_settings f) !! entry.1); [|done].
    simpl. by rewrite Hid.
  - unfold pageElement, Settings.getPageParams in Hc.
    by destruct (Settings.records (m_settings f) !! entry.1).
Qed.

(** X1: The element [saveSettings] returns is a [page-layout] element whose
    [showMiddleRect] attribute is ["1"] or ["0"] as the toggle is on or
    off; its children are the guides container, if there is any guide,
    followed by the page elements, and the ids of the page elements, in
    document order, are the printed numeric ids of the enumerated pages
    that have a record, in the order of the enumeration. *)
Theorem saveSettings_document writer f :
  isElement (saveSettings writer f) = true
  ∧ nodeName (saveSettings writer f) = "page-layout"
  ∧ attribute (saveSettings writer f) "showMiddleRect"
    = (if Settings.showMiddleRect (m_settings f) then "1" else "0")
  ∧ childNodes (saveSettings writer f)
    = guidesElement f ++ omap (pageElement f) writer
  ∧ List.map (fun c => attribute (Some c) "id")
      (List.filter (fun c => String.eqb (nodeName (Some c)) "page")
                   (childNodes (saveSettings writer f)))
    = List.map (fun entry => QString_number entry.2)
               (List.filter (hasRecord f) writer).
Proof.
  rewrite saveSettings_shape. simpl.
  split; [done|]. split; [done|].
  split; [by rewrite lookup_singleton_eq|]. split; [done|].
  rewrite List.filter_app, filter_pageElements, <- pageElements_ids.
  unfold guidesElement. by destruct (Settings.guides (m_settings f)).
Qed.

(** *** The loaded guides *)

Lemma foldl_loadSettings_guide_guides s nodes :
  Settings.guides (foldl loadSettings_guide s nodes)
  = Settings.guides s
    ++ List.map (fun c => Guide_fromXml (Some c))
                (List.filter isGuideElement nodes).
Proof.
  revert s. induction nodes as [|node nodes IH]; intros s.
  - simpl. by rewrite app_nil_r.
  - cbn [foldl List.filter]. rewrite IH. clear IH.
    unfold loadSettings_guide, isGuideElement, toElement.
    destruct (isElement (Some node)); [|done].
    destruct (String.eqb (nodeName (Some node)) "guide"); [|done].
    simpl. by rewrite <- app_assoc.
Qed.

(** X2: After [loadSettings] the guide list is [loadedGuides]: the [guide]
    element children, in document order, of the first child of the
    [page-layout] element that is named [guides]; other children of that
    container are skipped, later containers are not read, and there is no
    guide at all when that first child is not an element. *)
Theorem loadSettings_guides reader filters_el f :
  Settings.guides (m_settings (loadSettings reader filters_el f))
  = loadedGuides (toElement (namedItem filters_el "page-layout")).
Proof.
  unfold loadSettings, loadedGuides. cbn [m_settings set_settings].
  rewrite (proj1 (foldl_loadSettings_page_others _ _ _)).
  destruct (toElement (namedItem (toElement (namedItem filters_el
              "page-layout")) "guides")) as [guides_el|]; [|done].
  cbn [isNull negb]. by rewrite foldl_loadSettings_guide_guides.
Qed.

(** *** The loaded records *)

Lemma loadSettings_page_accepted reader s node :
  loadSettings_page reader s node
  = match acceptedPage reader node with
    | Some entry => Settings.setPageParams entry.1 entry.2 s
    | None => s
    end.
Proof.
  unfold loadSettings_page, acceptedPage, toElement.
  destruct (isElement (Some node)); [|done].
  destruct (String.eqb (nodeName (Some node)) "page"); [|done].
  simpl. destruct (QString_toInt _); [|done].
  destruct (PageId_isNull _); [done|].
  by destruct (isNull _).
Qed.

Lemma foldl_loadSettings_page_records reader s nodes :
  Settings.records (foldl (loadSettings_page reader) s nodes)
  = insertEntries (omap (acceptedPage reader) nodes) (Settings.records s).
Proof.
  unfold insertEntries. revert s.
  induction nodes as [|node nodes IH]; intros s; [done|].
  cbn [foldl]. rewrite IH, loadSettings_page_accepted. clear IH.
  assert (Hcons : omap (acceptedPage reader) (node :: nodes)
                  = option_list (acceptedPage reader node)
                    ++ omap (acceptedPage reader) nodes).
  { simpl. by destruct (acceptedPage reader node). }
  rewrite Hcons, foldl_app. by destruct (acceptedPage reader node).
Qed.

Lemma foldl_loadSettings_guide_records s nodes :
  Settings.records (foldl loadSettings_guide s nodes) = Settings.records s.
Proof.
  revert s. induction nodes as [|node nodes IH]; intros s; [done|].
  simpl. rewrite IH. apply loadSettings_guide_others.
Qed.

Lemma loadSettings_records_insertEntries reader filters_el f :
  Settings.records (m_settings (loadSettings reader filters_el f))
  = insertEntries
      (omap (acceptedPage reader)
            (childNodes (toElement (namedItem filters_el "page-layout"))))
      ∅.
Proof.
  unfold loadSettings. cbn [m_settings set_settings].
  rewrite foldl_loadSettings_page_records. f_equal.
  destruct (negb _); [|done].
  by rewrite foldl_loadSettings_guide_records.
Qed.

Lemma insertEntries_app (l1 l2 : list (PageId * Params)) m :
  insertEntries (l1 ++ l2) m = insertEntries l2 (insertEntries l1 m).
Proof. unfold insertEntries. apply foldl_app. Qed.

Lemma insertEntries_cons (k : PageId) (p : Params) entries m :
  insertEntries ((k, p) :: entries) m = insertEntries entries (<[k := p]> m).
Proof. reflexivity. Qed.

Lemma insertEntries_lookup_Some (entries : list (PageId * Params)) m k p :
  insertEntries entries m !! k = Some p →
  m !! k = Some p ∨ (k, p) ∈ entries.
Proof.
  unfold insertEntries. revert m.
  induction entries as [|[k' p'] entries IH]; intros m; simpl.
  - by left.
  - intros Hlookup. destruct (IH _ Hlookup) as [Hm|Hin].
    + destruct (decide (k' = k)) as [->|Hne].
      * rewrite lookup_insert_eq in Hm. injection Hm as ->.
        right. by left.
      * rewrite lookup_insert_ne in Hm by done. by left.
    + right. by right.
Qed.

Lemma insertEntries_lookup_other (entries : list (PageId * Params)) m k :
  (∀ p, (k, p) ∉ entries) →
  insertEntries entries m !! k = m !! k.
Proof.
  unfold insertEntries. revert m.
  induction entries as [|[k' p'] entries IH]; intros m Hnot; simpl; [done|].
  rewrite IH.
  - apply lookup_insert_ne. intros ->. apply (Hnot p'). by left.
  - intros p Hin. apply (Hnot p). by right.
Qed.

Lemma acceptedPage_Some reader node k p :
  acceptedPage reader node = Some (k, p) →
  isElement (Some node) = true
  ∧ nodeName (Some node) = "page"
  ∧ PageId_isNull k = false
  ∧ (∃ id, QString_toInt (attribute (Some node) "id") = Some id
           ∧ k = pageId reader id)
  ∧ isNull (toElement (namedItem (Some node) "params")) = false
  ∧ p = Params_fromXml (toElement (namedItem (Some node) "params")).
Proof.
  unfold acceptedPage.
  destruct (isElement (Some node)); [|done].
  destruct (String.eqb_spec (nodeName (Some node)) "page") as [Hname|];
    [|done].
  simpl. destruct (QString_toInt _) as [id|]; [|done].
  destruct (PageId_isNull (pageId reader id)) eqn:Hnull; [done|].
  destruct (isNull _); [done|].
  intros [= <- <-]. repeat split; try done. by exists id.
Qed.

(** X3: After [loadSettings] the records are those of the accepted [page]
    children of the [page-layout] element, stored one after the other in
    document order: children that are not [page] elements or are
    malformed contribute nothing. *)
Theorem loadSettings_records reader filters_el f :
  Settings.records (m_settings (loadSettings reader filters_el f))
  = insertEntries
      (omap (acceptedPage reader)
            (childNodes (toElement (namedItem filters_el "page-layout"))))
      ∅.
Proof.
  unfold loadSettings. cbn [m_settings set_settings].
  rewrite foldl_loadSettings_page_records. f_equal.
  destruct (negb _); [|done].
  by rewrite foldl_loadSettings_guide_records.
Qed.

(** X4: [loadSettings] never stores a record under the null page id, and
    every record it stores is the one read from the [params] child of a
    [page] element of the document whose id resolves to that page. *)
Theorem loadSettings_records_provenance reader filters_el f k p :
  Settings.getPageParams (m_settings (loadSettings reader filters_el f)) k
  = Some p →
  PageId_isNull k = false
  ∧ ∃ node id,
      node ∈ childNodes (toElement (namedItem filters_el "page-layout"))
      ∧ isElement (Some node) = true
      ∧ nodeName (Some node) = "page"
      ∧ QString_toInt (attribute (Some node) "id") = Some id
      ∧ pageId reader id = k
      ∧ Params_fromXml (toElement (namedItem (Some node) "params")) = p.
Proof.
  unfold Settings.getPageParams.
  rewrite loadSettings_records_insertEntries.
  intros [Hempty|Hin]%insertEntries_lookup_Some.
  - by rewrite lookup_empty in Hempty.
  - apply list_elem_of_omap in Hin as (node & Hnode & Haccepted).
    apply acceptedPage_Some in Haccepted
      as (Hel & Hname & Hnull & (id & Hid & ->) & _ & ->).
    split; [done|]. by exists node, id.
Qed.

(** X5: When several [page] children resolve to the same page, the last
    accepted one wins. *)
Theorem loadSettings_last_entry_wins reader filters_el f pre node post k p :
  childNodes (toElement (namedItem filters_el "page-layout"))
  = pre ++ node :: post →
  acceptedPage reader node = Some (k, p) →
  (∀ later p', later ∈ post → acceptedPage reader later ≠ Some (k, p')) →
  Settings.getPageParams (m_settings (loadSettings reader filters_el f)) k
  = Some p.
Proof.
  intros Hchildren Hnode Hlater. unfold Settings.getPageParams.
  rewrite loadSettings_records_insertEntries, Hchildren.
  assert (Hcons : omap (acceptedPage reader) (node :: post)
                  = (k, p) :: omap (acceptedPage reader) post).
  { simpl. by rewrite Hnode. }
  rewrite omap_app, Hcons, insertEntries_app, insertEntries_cons.
  rewrite insertEntries_lookup_other; [apply lookup_insert_eq|].
  intros p' Hin.
  apply list_elem_of_omap in Hin as (later & Hin & Haccepted).
  by eapply Hlater.
Qed.

(** X6: A page absent from the document has no record after [loadSettings]:
    if no accepted [page] child resolves to the page, the lookup is
    empty, whatever the store held before. *)
Theorem loadSettings_unmentioned_page reader filters_el f k :
  (∀ node p,
     node ∈ childNodes (toElement (namedItem filters_el "page-layout")) →
     acceptedPage reader node ≠ Some (k, p)) →
  Settings.getPageParams (m_settings (loadSettings reader filters_el f)) k
  = None
  ∧ Settings.isParamsNull (m_settings (loadSettings reader filters_el f)) k
    = true.
Proof.
  intros Hnone.
  assert (Hlookup :
    Settings.records (m_settings (loadSettings reader filters_el f)) !! k
    = None).
  { rewrite loadSettings_records_insertEntries.
    rewrite insertEntries_lookup_other; [apply lookup_empty|].
    intros p Hin.
    apply list_elem_of_omap in Hin as (node & Hin & Haccepted).
    by eapply Hnone. }
  unfold Settings.getPageParams, Settings.isParamsNull.
  by rewrite Hlookup.
Qed.

(** *** Children the loader does not know *)

Lemma loadSettings_page_ignored reader s node :
  ignoredNode node → loadSettings_page reader s node = s.
Proof.
  intros [_ [Hel|Hname]]; unfold loadSettings_page.
  - by rewrite Hel.
  - destruct (negb (isElement (Some node))); [done|].
    destruct (String.eqb_spec (nodeName (Some node)) "page"); done.
Qed.

(** X7: A child of the [page-layout] element that is neither a [page]
    element nor named [guides] (text, a comment, an element of another
    name) does not influence the load: the stage is the one loaded from
    the document without that child. *)
Theorem loadSettings_ignores_other_children reader filters_el filters_el'
    tag attrs pre node post f :
  toElement (namedItem filters_el "page-layout")
  = Some (ElementImpl tag attrs (pre ++ node :: post)) →
  toElement (namedItem filters_el' "page-layout")
  = Some (ElementImpl tag attrs (pre ++ post)) →
  ignoredNode node →
  loadSettings reader filters_el f = loadSettings reader filters_el' f.
Proof.
  intros Hel Hel' Hnode.
  unfold loadSettings. rewrite Hel, Hel'. f_equal.
  unfold namedItem. cbn [childNodes attribute].
  rewrite find_app_skip.
  2:{ destruct Hnode as [Hname _].
      by destruct (String.eqb_spec (nodeName (Some node)) "guides"). }
  rewrite !foldl_app. cbn [foldl].
  by rewrite (loadSettings_page_ignored _ _ _ Hnode).
Qed.

End DocumentProperties.

(** ** How the calls of the stage compose *)

Section Composition.
Context `{Collaborators}.

(** *** Saving what was loaded *)

Lemma omap_ext_in {A B : Type} (g1 g2 : A → option B) (l : list A) :
  (∀ x, x ∈ l → g1 x = g2 x) → omap g1 l = omap g2 l.
Proof.
  induction l as [|x l IH]; intros Hext; [done|].
  assert (Htail : omap g1 l = omap g2 l).
  { apply IH. intros y Hy. apply Hext. by right. }
  simpl. rewrite (Hext x) by (by left).
  destruct (g2 x); [f_equal|]; exact Htail.
Qed.

Lemma saveSettings_ext (writer : ProjectWriter) f f' :
  Settings.showMiddleRect (m_settings f')
  = Settings.showMiddleRect (m_settings f) →
  Settings.guides (m_settings f') = Settings.guides (m_settings f) →
  (∀ entry, entry ∈ writer →
     Settings.records (m_settings f') !! entry.1
     = Settings.records (m_settings f) !! entry.1) →
  saveSettings writer f' = saveSettings writer f.
Proof.
  intros Htoggle Hguides Hrecords. rewrite !saveSettings_shape.
  unfold guidesElement. rewrite Htoggle, Hguides. do 3 f_equal.
  apply omap_ext_in. intros entry Hentry.
  unfold pageElement, Settings.getPageParams.
  by rewrite (Hrecords entry Hentry).
Qed.

Lemma restored_readsBack reader (writer : ProjectWriter) entry :
  entry ∈ writer → readsBack reader entry = true →
  restored reader writer entry.1 = true.
Proof.
  intros Hin Hback. unfold restored. apply existsb_exists.
  exists entry. split; [by apply list_elem_of_In|].
  by rewrite bool_decide_eq_true_2, Hback.
Qed.

(** X8: Saving is stable under a reload: when the records written are well
    formed and every written id resolves back to its page, the document
    saved from the stage that loaded the saved document is that same
    document, even if the store held records of pages the writer does not
    enumerate. *)
Theorem saveSettings_loadSettings_saveSettings reader
    (writer : ProjectWriter) filters_el f f0 :
  wellFormedStore (m_settings f) →
  Forall idPrintsAndParses writer →
  (∀ entry, entry ∈ writer → hasRecord f entry = true →
            readsBack reader entry = true) →
  toElement (namedItem filters_el "page-layout") = saveSettings writer f →
  saveSettings writer (loadSettings reader filters_el f0)
  = saveSettings writer f.
Proof.
  intros Hwf Hids Hback Hel.
  assert (Hrecord : ∀ entry,
            is_Some (Settings.records (m_settings f) !! entry.1) →
            hasRecord f entry = true).
  { intros entry [p Hp]. unfold hasRecord, Settings.isParamsNull.
    by rewrite Hp. }
  assert (Hcons : consistent reader writer (m_settings f)).
  { intros entry Hentry Hsome. right.
    specialize (Hback entry Hentry (Hrecord entry Hsome)).
    unfold readsBack in Hback. apply andb_true_iff in Hback as [Hsame _].
    by apply bool_decide_eq_true_1 in Hsame. }
  pose proof (loadSettings_saveSettings reader writer filters_el f f0
                Hwf Hids Hel) as Hloaded.
  apply saveSettings_ext.
  - rewrite Hloaded. by rewrite (proj2 (foldl_restoreEntry_others _ _ _ _)).
  - rewrite Hloaded. by rewrite (proj1 (foldl_restoreEntry_others _ _ _ _)).
  - intros entry Hentry. rewrite Hloaded.
    rewrite (foldl_restoreEntry_lookup _ _ _ _ _ Hcons). simpl.
    destruct (Settings.records (m_settings f) !! entry.1) as [p|] eqn:Hp;
      [|apply lookup_empty].
    rewrite (restored_readsBack reader writer entry Hentry); [done|].
    apply Hback; [done|]. apply Hrecord. by rewrite Hp.
Qed.

(** X9: Pruning the store with [selected] does not change what is saved, as
    long as the writer enumerates pages of the project only. *)
Theorem saveSettings_selected (writer : ProjectWriter) f :
  (∀ entry, entry ∈ writer → entry.1 ∈ m_pages f) →
  saveSettings writer (selected f) = saveSettings writer f.
Proof.
  intros Hpages. apply saveSettings_ext; [done|done|].
  intros entry Hentry. unfold selected. simpl.
  rewrite map_lookup_filter.
  destruct (Settings.records (m_settings f) !! entry.1) as [p|]; [|done].
  simpl. rewrite option_guard_True; [done|]. by apply Hpages.
Qed.

(** *** Defaults and loaded settings *)

Lemma isParamsNull_setPageParams_ne page_id page_id' params s :
  page_id ≠ page_id' →
  Settings.isParamsNull (Settings.setPageParams page_id params s) page_id'
  = Settings.isParamsNull s page_id'.
Proof.
  intros Hne. unfold Settings.isParamsNull, Settings.setPageParams. simpl.
  by rewrite lookup_insert_ne.
Qed.

Lemma setPageParams_commute page_id page_id' params params' s :
  page_id ≠ page_id' →
  Settings.setPageParams page_id params
    (Settings.setPageParams page_id' params' s)
  = Settings.setPageParams page_id' params'
      (Settings.setPageParams page_id params s).
Proof.
  intros Hne. unfold Settings.setPageParams. simpl. f_equal.
  by apply insert_insert_ne.
Qed.

(** X10: Seeding the defaults of two different pages gives the same stage in
    either order, whether or not either page already has a record. *)
Theorem loadDefaultSettings_commute defaultParams defaultParams'
    page_info page_info' f :
  PageInfo_id page_info ≠ PageInfo_id page_info' →
  loadDefaultSettings defaultParams page_info
    (loadDefaultSettings defaultParams' page_info' f)
  = loadDefaultSettings defaultParams' page_info'
      (loadDefaultSettings defaultParams page_info f).
Proof.
  intros Hne.
  destruct (Settings.isParamsNull (m_settings f) (PageInfo_id page_info))
    eqn:Hnull;
  destruct (Settings.isParamsNull (m_settings f) (PageInfo_id page_info'))
    eqn:Hnull'.
  - rewrite (loadDefaultSettings_absent defaultParams' page_info' f Hnull').
    rewrite (loadDefaultSettings_absent defaultParams page_info f Hnull).
    rewrite !loadDefaultSettings_absent; cbn [m_settings set_settings].
    + unfold set_settings. simpl. f_equal. by apply setPageParams_commute.
    + by rewrite isParamsNull_setPageParams_ne.
    + by rewrite isParamsNull_setPageParams_ne.
  - rewrite (loadDefaultSettings_present defaultParams' page_info' f Hnull').
    rewrite (loadDefaultSettings_absent defaultParams page_info f Hnull).
    rewrite loadDefaultSettings_present; [done|].
    cbn [m_settings set_settings].
    by rewrite isParamsNull_setPageParams_ne.
  - rewrite (loadDefaultSettings_present defaultParams page_info f Hnull).
    rewrite (loadDefaultSettings_absent defaultParams' page_info' f Hnull').
    rewrite loadDefaultSettings_present; [done|].
    cbn [m_settings set_settings].
    by rewrite isParamsNull_setPageParams_ne.
  - rewrite (loadDefaultSettings_present defaultParams' page_info' f Hnull').
    rewrite (loadDefaultSettings_present defaultParams page_info f Hnull).
    by rewrite (loadDefaultSettings_present defaultParams' page_info' f
                  Hnull').
Qed.

Lemma insertEntries_lookup_is_Some (entries : list (PageId * Params)) m k :
  is_Some (m !! k) → is_Some (insertEntries entries m !! k).
Proof.
  revert m. induction entries as [|[k' p'] entries IH]; intros m Hsome;
    [done|].
  rewrite insertEntries_cons. apply IH.
  destruct (decide (k' = k)) as [->|Hne].
  - rewrite lookup_insert_eq. by eexists.
  - by rewrite lookup_insert_ne.
Qed.

(** X11: Defaults never replace loaded settings: for a page to which an
    accepted [page] child of the loaded document resolves,
    [loadDefaultSettings] after [loadSettings] changes nothing. *)
Theorem loadDefaultSettings_after_loadSettings reader filters_el
    defaultParams page_info node p f :
  node ∈ childNodes (toElement (namedItem filters_el "page-layout")) →
  acceptedPage reader node = Some (PageInfo_id page_info, p) →
  loadDefaultSettings defaultParams page_info
    (loadSettings reader filters_el f)
  = loadSettings reader filters_el f.
Proof.
  intros Hnode Haccepted. apply loadDefaultSettings_present.
  unfold Settings.isParamsNull.
  rewrite loadSettings_records_insertEntries.
  apply list_elem_of_split in Hnode as (pre & post & ->).
  assert (Hcons :
    omap (acceptedPage reader) (node :: post)
    = (PageInfo_id page_info, p) :: omap (acceptedPage reader) post).
  { simpl. by rewrite Haccepted. }
  rewrite omap_app, insertEntries_app, Hcons, insertEntries_cons.
  destruct (insertEntries_lookup_is_Some
              (omap (acceptedPage reader) post)
              (<[PageInfo_id page_info := p]>
                 (insertEntries (omap (acceptedPage reader) pre) ∅))
              (PageInfo_id page_info)) as [p' ->]; [|done].
  rewrite lookup_insert_eq. by eexists.
Qed.

(** *** The selected page order *)

Lemma step_frame op f f' :
  step op f = Some f' →
  m_selectedPageOrder f'
  = match op with
    | OpSelectPageOrder opt => opt
    | _ => m_selectedPageOrder f
    end
  ∧ m_pages f' = m_pages f
  ∧ m_optionsWidget f' = m_optionsWidget f.
Proof.
  destruct op; simpl; intros Hstep;
    try (injection Hstep as <-; done).
  - apply selectPageOrder_Some in Hstep. by subst f'.
  - injection Hstep as <-. unfold loadDefaultSettings.
    destruct (negb _); [done|].
    by repeat destruct (UnitsConverter_convert _ _ _ _ _).
Qed.

Lemma run_frame ops f f' :
  run ops f = Some f' →
  m_selectedPageOrder f'
  = foldl (fun acc op =>
             match op with OpSelectPageOrder opt => opt | _ => acc end)
          (m_selectedPageOrder f) ops
  ∧ m_pages f' = m_pages f
  ∧ m_optionsWidget f' = m_optionsWidget f.
Proof.
  revert f. induction ops as [|op ops IH]; intros f; simpl.
  - by intros [= <-].
  - destruct (step op f) as [f1|] eqn:Hstep; [|done].
    intros Hrun. destruct (IH _ Hrun) as (-> & -> & ->).
    destruct (step_frame _ _ _ Hstep) as (-> & -> & ->).
    by destruct op.
Qed.

(** X12: Only [selectPageOrder] changes the selected page order: after any
    run of calls, [selectedPageOrder] returns the argument of the last
    [selectPageOrder] of the run, or [0] when there was none; the page
    list and the presence of the options widget are those the stage was
    constructed with. *)
Theorem selectedPageOrder_last isGui pages ops f :
  run ops (Filter_new isGui pages) = Some f →
  selectedPageOrder f = lastSelected ops
  ∧ m_pages f = pages
  ∧ optionsWidget f = isGui.
Proof.
  intros Hrun. destruct (run_frame _ _ _ Hrun) as (Hsel & Hpages & Hwidget).
  unfold selectedPageOrder, optionsWidget, lastSelected.
  by rewrite Hsel, Hpages, Hwidget.
Qed.

Lemma run_selectedPageOrder_valid ops f f' :
  run ops f = Some f' →
  Forall intArgument ops →
  length (m_pageOrderOptions f) = 4%nat →
  0 ≤ m_selectedPageOrder f < 4 →
  0 ≤ m_selectedPageOrder f' < 4.
Proof.
  revert f. induction ops as [|op ops IH]; intros f; simpl.
  - by intros [= <-].
  - destruct (step op f) as [f1|] eqn:Hstep; [|done].
    intros Hrun Hint Hlen Hsel.
    apply Forall_cons in Hint as [Hop Hint].
    apply (IH f1 Hrun Hint).
    + by rewrite (step_pageOrderOptions _ _ _ Hstep).
    + destruct (step_frame _ _ _ Hstep) as (-> & _ & _).
      destruct op; try done. simpl in Hstep, Hop.
      unfold selectPageOrder in Hstep.
      destruct (selectPageOrder_assertion opt f) eqn:Hassert; [|done].
      by apply selectPageOrder_assertion_spec in Hassert.
Qed.

(** X13: The selected page order is always an index into the option list:
    after any run of calls that passes the assertions, with [int]
    arguments, [0 <= selectedPageOrder < 4] and the option at that index
    exists. *)
Theorem selectedPageOrder_valid isGui pages ops f :
  run ops (Filter_new isGui pages) = Some f →
  Forall intArgument ops →
  0 ≤ selectedPageOrder f < Z.of_nat (length (pageOrderOptions f))
  ∧ is_Some (pageOrderOptions f !! Z.to_nat (selectedPageOrder f)).
Proof.
  intros Hrun Hint.
  assert (Hsel : 0 ≤ m_selectedPageOrder f < 4).
  { apply (run_selectedPageOrder_valid _ _ _ Hrun Hint); [done|].
    simpl. lia. }
  assert (Hlen : length (pageOrderOptions f) = 4%nat).
  { unfold pageOrderOptions. by rewrite (run_pageOrderOptions _ _ _ Hrun). }
  unfold selectedPageOrder. rewrite Hlen. split; [lia|].
  apply lookup_lt_is_Some. rewrite Hlen. lia.
Qed.

(** X14: For an [int] argument, [selectPageOrder] passes its assertion and
    returns exactly when the argument is one of the four indices: every
    negative argument and every argument from 4 upwards fails. *)
Theorem selectPageOrder_succeeds_iff isGui pages ops f opt :
  run ops (Filter_new isGui pages) = Some f →
  - 2 ^ 31 ≤ opt < 2 ^ 31 →
  is_Some (selectPageOrder opt f) ↔ 0 ≤ opt < 4.
Proof.
  intros Hrun Hint.
  assert (Hlen : length (m_pageOrderOptions f) = 4%nat).
  { by rewrite (run_pageOrderOptions _ _ _ Hrun). }
  rewrite <- (selectPageOrder_assertion_spec opt f Hlen Hint).
  unfold selectPageOrder.
  destruct (selectPageOrder_assertion opt f); split; intros Hyp.
  - done.
  - by eexists.
  - by destruct Hyp.
  - done.
Qed.

End Composition.

(** ** The properties on concrete projects *)

#[local] Existing Instance Demo.domain.
#[local] Existing Instance Demo.collaborators.

Lemma Demo_params10_wellFormed :
  @wellFormedParams Demo.domain Demo.collaborators Demo.params10.
Proof. repeat split; vm_compute; reflexivity. Qed.

Lemma Demo_writer2_ids :
  Forall (@idPrintsAndParses Demo.domain Demo.collaborators) Demo.writer2.
Proof. repeat constructor; vm_compute; reflexivity. Qed.

Lemma Demo_store1_wellFormed :
  @wellFormedStore Demo.domain Demo.collaborators Demo.store1.
Proof.
  split.
  - intros k p Hk. cbn in Hk.
    apply lookup_singleton_Some in Hk as [_ <-].
    apply Demo_params10_wellFormed.
  - repeat constructor; vm_compute; reflexivity.
Qed.

(** The store with one record, a guide and the toggle on comes back
    unchanged from the document of the two-page project. *)
Lemma saveSettings_loadSettings_round_trip_witness :
  let saved :=
    @saveSettings Demo.domain Demo.collaborators Demo.writer2
                  (Demo.stage Demo.store1) in
  m_settings (@loadSettings Demo.domain Demo.collaborators Demo.reader2
                (Demo.filters (option_list saved))
                (Demo.stage Demo.storeStale))
  = Demo.store1.
Proof.
  intros saved.
  apply (@saveSettings_loadSettings_round_trip Demo.domain Demo.collaborators
           Demo.reader2 Demo.writer2 (Demo.filters (option_list saved))
           (Demo.stage Demo.store1) (Demo.stage Demo.storeStale)).
  - apply Demo_store1_wellFormed.
  - apply Demo_writer2_ids.
  - intros entry Hentry _. right.
    apply elem_of_cons in Hentry as [->|Hentry]; [reflexivity|].
    apply elem_of_cons in Hentry as [->|Hentry]; [reflexivity|].
    by apply elem_of_nil in Hentry.
  - vm_compute. reflexivity.
  - intros k [p Hk]. cbn in Hk.
    apply lookup_singleton_Some in Hk as [<- _]. vm_compute. reflexivity.
Defined.

(** C1 as stated fails. The store holds one well-formed record, for a
    page the writer does not enumerate, and every id the writer hands out
    resolves back to its page; the store read back from the saved element
    inside a [filters] element has lost the record. Handing the element
    returned by [saveSettings] to [loadSettings] directly loses the toggle
    as well, since [loadSettings] looks for a [page-layout] child. *)
Lemma round_trip_counterexample :
  let f := Demo.stage Demo.storeStale in
  let saved :=
    @saveSettings Demo.domain Demo.collaborators Demo.writer2 f in
  let loaded :=
    m_settings (@loadSettings Demo.domain Demo.collaborators Demo.reader2
                  (Demo.filters (option_list saved)) Demo.init) in
  let loaded_directly :=
    m_settings (@loadSettings Demo.domain Demo.collaborators Demo.reader2
                  saved Demo.init) in
  (@wellFormedStore Demo.domain Demo.collaborators (m_settings f)
   ∧ Forall (fun entry : string * Z =>
               @pageId Demo.domain Demo.reader2 entry.2 = entry.1
               ∧ @PageId_isNull Demo.domain entry.1 = false)
            Demo.writer2)
  ∧ (loaded = Settings.mkImpl ∅ [] true ∧ loaded ≠ m_settings f)
  ∧ (loaded_directly = Settings.empty ∧ loaded_directly ≠ m_settings f).
Proof.
  intros f saved loaded loaded_directly.
  assert (Hloaded : loaded = Settings.mkImpl ∅ [] true)
    by (vm_compute; reflexivity).
  assert (Hdirectly : loaded_directly = Settings.empty)
    by (vm_compute; reflexivity).
  split; [split|split; split; [done| |done|]].
  - split.
    + intros k p Hk. cbn in Hk.
      apply lookup_singleton_Some in Hk as [_ <-].
      apply Demo_params10_wellFormed.
    + constructor.
  - repeat constructor.
  - rewrite Hloaded. intros Heq.
    apply (f_equal (fun s => Settings.records s !! ("c.tif" : string)))
      in Heq.
    vm_compute in Heq. discriminate Heq.
  - rewrite Hdirectly. intros Heq.
    apply (f_equal (@Settings.showMiddleRect Demo.domain)) in Heq.
    vm_compute in Heq. discriminate Heq.
Qed.

(** The entry whose id is ["seven"] is skipped; the pages before and after
    it are loaded. *)
Lemma loadSettings_skips_malformed_witness :
  @loadSettings Demo.domain Demo.collaborators Demo.reader2
                Demo.docWithBad Demo.init
  = @loadSettings Demo.domain Demo.collaborators Demo.reader2
                  Demo.docWithoutBad Demo.init
  ∧ Settings.records
      (m_settings (@loadSettings Demo.domain Demo.collaborators Demo.reader2
                                 Demo.docWithBad Demo.init))
    = {[ "a.tif" := Demo.params10; "b.tif" := Demo.params10 ]}.
Proof.
  split.
  - refine (proj2 (@loadSettings_skips_malformed Demo.domain
             Demo.collaborators Demo.reader2 Demo.docWithBad
             Demo.docWithoutBad "page-layout" {[ "showMiddleRect" := "1" ]}
             [Demo.pageEl 3 Demo.params10] Demo.badPage
             [Demo.pageEl 4 Demo.params10] Demo.init _ _ _)).
    + reflexivity.
    + reflexivity.
    + split; [reflexivity|]. split; [reflexivity|].
      left. vm_compute. reflexivity.
  - vm_compute. reflexivity.
Defined.

(** Half an inch at 300 dpi is stored as 12.7 mm on every side. *)
Lemma loadDefaultSettings_record_witness :
  let f' := @loadDefaultSettings Demo.domain Demo.collaborators
              Demo.halfInch Demo.pageA300 Demo.init in
  ∃ p, Settings.getPageParams (m_settings f') "a.tif" = Some p
       ∧ hardMarginsMM p = mkMargins 12.7 12.7 12.7 12.7
       ∧ near 1e-9 (m_left (hardMarginsMM p)) 12.7 = true
       ∧ pageRect p = QRectF_default ∧ contentSizeMM p = QSizeF_default.
Proof.
  intros f'.
  destruct (@loadDefaultSettings_record Demo.domain Demo.collaborators
              Demo.halfInch Demo.pageA300 Demo.init eq_refl)
    as (Hget & _ & _ & Hpage & _ & Hsize & _ & _ & Hnear).
  eexists. split; [exact Hget|].
  assert (Hlinear : @convertsInchesLinearly Demo.domain Demo.collaborators).
  { intros d h v. reflexivity. }
  destruct (Hnear Hlinear eq_refl eq_refl eq_refl) as (Hm & Hl & _).
  by repeat split.
Defined.

(** Saving a store without guides writes no [guides] child, and the
    second page, which has no record, adds nothing. *)
Lemma saveSettings_omissions_witness :
  let f := Demo.stage (Settings.mkImpl {[ "a.tif" := Demo.params10 ]} []
                                       true) in
  namedItem (@saveSettings Demo.domain Demo.collaborators Demo.writer2 f)
            "guides" = None
  ∧ childNodes (@saveSettings Demo.domain Demo.collaborators Demo.writer2 f)
    = [Demo.pageEl 3 Demo.params10]
  ∧ @writePageSettings Demo.domain Demo.collaborators f
      (createElement "page-layout") "b.tif" 4
    = createElement "page-layout".
Proof.
  intros f.
  destruct (@saveSettings_omissions Demo.domain Demo.collaborators
              Demo.writer2 f) as (_ & Hguides & Habsent & _ & _).
  destruct (Hguides eq_refl) as [Hnone Hchildren].
  split; [exact Hnone|]. split.
  - rewrite Hchildren. vm_compute. reflexivity.
  - apply Habsent. vm_compute. reflexivity.
Defined.

(** After a run of seven calls the option list is the constructed one. *)
Lemma pageOrderOptions_fixed_witness :
  run Demo.calls Demo.init = Some Demo.afterCalls
  ∧ pageOrderOptions Demo.afterCalls
    = @fixedPageOrderOptions Demo.domain Demo.collaborators.
Proof.
  assert (Hrun : run Demo.calls Demo.init = Some Demo.afterCalls)
    by (vm_compute; reflexivity).
  split; [exact Hrun|].
  exact (proj1 (@pageOrderOptions_fixed Demo.domain Demo.collaborators true
                  ["a.tif"; "b.tif"] Demo.calls Demo.afterCalls Hrun)).
Defined.

(** Selecting option 3 on that stage succeeds and is read back; option -1
    fails the assertion. *)
Lemma selectPageOrder_in_range_witness :
  (∃ f', selectPageOrder 3 Demo.afterCalls = Some f'
         ∧ selectedPageOrder f' = 3
         ∧ m_settings f' = m_settings Demo.afterCalls)
  ∧ selectPageOrder (-1) Demo.afterCalls = None.
Proof.
  assert (Hrun : run Demo.calls Demo.init = Some Demo.afterCalls)
    by (vm_compute; reflexivity).
  destruct (@selectPageOrder_in_range Demo.domain Demo.collaborators true
              ["a.tif"; "b.tif"] Demo.calls Demo.afterCalls 3 Hrun
              ltac:(lia))
    as (_ & (f' & Hsel & Hread & Hstore & _) & Hneg).
  split.
  - exists f'. by repeat split.
  - apply (Hneg (-1)). lia.
Defined.

(** A document whose toggle attribute is ["1"] switches the toggle on. *)
Lemma loadSettings_showMiddleRect_witness :
  Settings.showMiddleRect
    (m_settings (@loadSettings Demo.domain Demo.collaborators Demo.reader2
                               Demo.docWithBad Demo.init))
  = true.
Proof.
  apply (proj1 (proj2 (@loadSettings_showMiddleRect Demo.domain
                         Demo.collaborators Demo.reader2 Demo.docWithBad
                         Demo.init))).
  eexists _, _, _. split; reflexivity.
Defined.

(** A [filters] element that only holds another stage's settings leaves
    the store empty. *)
Lemma loadSettings_no_page_layout_witness :
  m_settings (@loadSettings Demo.domain Demo.collaborators Demo.reader2
                (Demo.filters [ElementImpl "output" ∅ []])
                (Demo.stage Demo.store1))
  = Settings.empty.
Proof.
  apply (@loadSettings_no_page_layout Demo.domain Demo.collaborators
           Demo.reader2 (Demo.filters [ElementImpl "output" ∅ []])
           (Demo.stage Demo.store1)).
  reflexivity.
Defined.

(** ** Further properties on concrete documents *)

Lemma Samples_params20_wellFormed :
  @wellFormedParams Demo.domain Demo.collaborators Samples.params20.
Proof. repeat split; vm_compute; reflexivity. Qed.

Lemma Samples_storeMixed_wellFormed :
  @wellFormedStore Demo.domain Demo.collaborators Samples.storeMixed.
Proof.
  split.
  - intros k p Hk. cbn in Hk.
    apply lookup_insert_Some in Hk as [[_ <-]|[_ Hk]].
    + apply Demo_params10_wellFormed.
    + apply lookup_singleton_Some in Hk as [_ <-].
      apply Samples_params20_wellFormed.
  - repeat constructor; vm_compute; reflexivity.
Qed.

(** The record loaded for the first page comes from a [page] element
    with id 3. *)
Lemma loadSettings_records_provenance_witness :
  ∃ node,
    node ∈ childNodes (toElement (namedItem Demo.docWithBad "page-layout"))
    ∧ QString_toInt (attribute (Some node) "id") = Some 3
    ∧ Params_fromXml (toElement (namedItem (Some node) "params"))
      = Demo.params10.
Proof.
  destruct (@loadSettings_records_provenance Demo.domain Demo.collaborators
              Demo.reader2 Demo.docWithBad Demo.init "a.tif" Demo.params10)
    as (_ & node & id & Hin & _ & _ & Hid & Hpage & Hparams).
  { vm_compute. reflexivity. }
  exists node. split; [exact Hin|]. split; [|exact Hparams].
  rewrite Hid. f_equal.
  destruct (Z.eq_dec id 3) as [->|Hne]; [reflexivity|].
  destruct (Z.eq_dec id 4) as [->|Hne']; [discriminate Hpage|].
  exfalso. revert Hpage. unfold Demo.reader2. simpl.
  destruct (Z.eqb_spec id 3); [done|].
  destruct (Z.eqb_spec id 4); [done|]. discriminate.
Defined.

(** Of the two entries with id 3 the second, with 20 mm margins, is the
    one that is kept. *)
Lemma loadSettings_last_entry_wins_witness :
  Settings.getPageParams
    (m_settings (@loadSettings Demo.domain Demo.collaborators Demo.reader2
                               Samples.docTwice Demo.init))
    "a.tif"
  = Some Samples.params20.
Proof.
  apply (@loadSettings_last_entry_wins Demo.domain Demo.collaborators
           Demo.reader2 Samples.docTwice Demo.init
           [Samples.guidesEl; Demo.pageEl 3 Demo.params10; Samples.comment]
           (Demo.pageEl 3 Samples.params20)
           [Demo.pageEl 4 Demo.params10]).
  - reflexivity.
  - vm_compute. reflexivity.
  - intros later p' Hlater Haccepted.
    apply list_elem_of_singleton in Hlater as ->.
    vm_compute in Haccepted. discriminate Haccepted.
Defined.

(** The third page is not mentioned in the document: it has no record
    after the load, although the stage held one before. *)
Lemma loadSettings_unmentioned_page_witness :
  Settings.getPageParams (m_settings (Demo.stage Demo.storeStale)) "c.tif"
  = Some Demo.params10
  ∧ Settings.getPageParams
      (m_settings (@loadSettings Demo.domain Demo.collaborators Demo.reader2
                                 Demo.docWithBad
                                 (Demo.stage Demo.storeStale)))
      "c.tif"
    = None.
Proof.
  split; [vm_compute; reflexivity|].
  apply (@loadSettings_unmentioned_page Demo.domain Demo.collaborators
           Demo.reader2 Demo.docWithBad (Demo.stage Demo.storeStale)
           "c.tif").
  intros node p Hnode Haccepted.
  change (node ∈ [Demo.pageEl 3 Demo.params10; Demo.badPage;
                  Demo.pageEl 4 Demo.params10]) in Hnode.
  repeat (apply elem_of_cons in Hnode as [->|Hnode];
          [vm_compute in Haccepted; discriminate Haccepted|]).
  by apply elem_of_nil in Hnode.
Defined.

(** The comment between the page elements makes no difference. *)
Lemma loadSettings_ignores_other_children_witness :
  @loadSettings Demo.domain Demo.collaborators Demo.reader2
                Samples.docTwice Demo.init
  = @loadSettings Demo.domain Demo.collaborators Demo.reader2
                  Samples.docTwiceWithoutComment Demo.init.
Proof.
  apply (@loadSettings_ignores_other_children Demo.domain Demo.collaborators
           Demo.reader2 Samples.docTwice Samples.docTwiceWithoutComment
           "page-layout" {[ "showMiddleRect" := "0" ]}
           [Samples.guidesEl; Demo.pageEl 3 Demo.params10] Samples.comment
           [Demo.pageEl 3 Samples.params20; Demo.pageEl 4 Demo.params10]
           Demo.init).
  - reflexivity.
  - reflexivity.
  - split; [discriminate|]. left. reflexivity.
Defined.

(** The document saved from the store with a stale record is saved again
    unchanged after it has been loaded. *)
Lemma saveSettings_loadSettings_saveSettings_witness :
  let f := Demo.stage Samples.storeMixed in
  let saved := @saveSettings Demo.domain Demo.collaborators Demo.writer2 f in
  let loaded := @loadSettings Demo.domain Demo.collaborators Demo.reader2
                  (Demo.filters (option_list saved)) Demo.init in
  @saveSettings Demo.domain Demo.collaborators Demo.writer2 loaded = saved
  ∧ m_settings loaded ≠ m_settings f.
Proof.
  intros f saved loaded. split.
  - apply (@saveSettings_loadSettings_saveSettings Demo.domain
             Demo.collaborators Demo.reader2 Demo.writer2
             (Demo.filters (option_list saved)) f Demo.init).
    + apply Samples_storeMixed_wellFormed.
    + apply Demo_writer2_ids.
    + intros entry Hentry _.
      apply elem_of_cons in Hentry as [->|Hentry]; [reflexivity|].
      apply elem_of_cons in Hentry as [->|Hentry]; [reflexivity|].
      by apply elem_of_nil in Hentry.
    + vm_compute. reflexivity.
  - intros Heq.
    apply (f_equal (fun s => Settings.records s !! ("c.tif" : string)))
      in Heq.
    vm_compute in Heq. discriminate Heq.
Defined.

(** Pruning the stale record does not change the saved document. *)
Lemma saveSettings_selected_witness :
  let f := Demo.stage Samples.storeMixed in
  @saveSettings Demo.domain Demo.collaborators Demo.writer2 (selected f)
  = @saveSettings Demo.domain Demo.collaborators Demo.writer2 f
  ∧ m_settings (selected f) ≠ m_settings f.
Proof.
  intros f. split.
  - apply (@saveSettings_selected Demo.domain Demo.collaborators
             Demo.writer2 f).
    intros entry Hentry.
    apply elem_of_cons in Hentry as [->|Hentry]; [by left|].
    apply elem_of_cons in Hentry as [->|Hentry]; [by right; left|].
    by apply elem_of_nil in Hentry.
  - intros Heq.
    apply (f_equal (fun s => Settings.records s !! ("c.tif" : string)))
      in Heq.
    vm_compute in Heq. discriminate Heq.
Defined.

(** Seeding the first page from defaults in inches and the second from
    defaults in millimetres, in either order. *)
Lemma loadDefaultSettings_commute_witness :
  @loadDefaultSettings Demo.domain Demo.collaborators
    Demo.halfInch Demo.pageA300
    (@loadDefaultSettings Demo.domain Demo.collaborators
       Samples.fiveMM Samples.pageB600 Demo.init)
  = @loadDefaultSettings Demo.domain Demo.collaborators
      Samples.fiveMM Samples.pageB600
      (@loadDefaultSettings Demo.domain Demo.collaborators
         Demo.halfInch Demo.pageA300 Demo.init).
Proof.
  apply (@loadDefaultSettings_commute Demo.domain Demo.collaborators
           Demo.halfInch Samples.fiveMM Demo.pageA300 Samples.pageB600
           Demo.init).
  discriminate.
Defined.

(** The margins loaded for the first page are not replaced by the
    defaults. *)
Lemma loadDefaultSettings_after_loadSettings_witness :
  Settings.getPageParams
    (m_settings
       (@loadDefaultSettings Demo.domain Demo.collaborators
          Demo.halfInch Demo.pageA300
          (@loadSettings Demo.domain Demo.collaborators Demo.reader2
                         Demo.docWithBad Demo.init)))
    "a.tif"
  = Some Demo.params10.
Proof.
  rewrite (@loadDefaultSettings_after_loadSettings Demo.domain
             Demo.collaborators Demo.reader2 Demo.docWithBad Demo.halfInch
             Demo.pageA300 (Demo.pageEl 3 Demo.params10) Demo.params10
             Demo.init).
  - vm_compute. reflexivity.
  - change (Demo.pageEl 3 Demo.params10
            ∈ [Demo.pageEl 3 Demo.params10; Demo.badPage;
               Demo.pageEl 4 Demo.params10]).
    by left.
  - vm_compute. reflexivity.
Defined.

(** After the seven calls the selected order is 2, the argument of the
    only [selectPageOrder] among them. *)
Lemma selectedPageOrder_last_witness :
  selectedPageOrder Demo.afterCalls = 2
  ∧ m_pages Demo.afterCalls = ["a.tif"; "b.tif"]
  ∧ optionsWidget Demo.afterCalls = true.
Proof.
  assert (Hrun : run Demo.calls Demo.init = Some Demo.afterCalls)
    by (vm_compute; reflexivity).
  exact (@selectedPageOrder_last Demo.domain Demo.collaborators true
           ["a.tif"; "b.tif"] Demo.calls Demo.afterCalls Hrun).
Defined.

(** After the seven calls the selected order indexes an option. *)
Lemma selectedPageOrder_valid_witness :
  0 ≤ selectedPageOrder Demo.afterCalls
    < Z.of_nat (length (pageOrderOptions Demo.afterCalls))
  ∧ is_Some (pageOrderOptions Demo.afterCalls
               !! Z.to_nat (selectedPageOrder Demo.afterCalls)).
Proof.
  assert (Hrun : run Demo.calls Demo.init = Some Demo.afterCalls)
    by (vm_compute; reflexivity).
  apply (@selectedPageOrder_valid Demo.domain Demo.collaborators true
           ["a.tif"; "b.tif"] Demo.calls Demo.afterCalls Hrun).
  repeat constructor; simpl; lia.
Defined.

(** On the stage reached by the seven calls, option 3 is accepted and
    option 4 is not. *)
Lemma selectPageOrder_succeeds_iff_witness :
  is_Some (selectPageOrder 3 Demo.afterCalls)
  ∧ selectPageOrder 4 Demo.afterCalls = None.
Proof.
  assert (Hrun : run Demo.calls Demo.init = Some Demo.afterCalls)
    by (vm_compute; reflexivity).
  split.
  - apply (@selectPageOrder_succeeds_iff Demo.domain Demo.collaborators true
             ["a.tif"; "b.tif"] Demo.calls Demo.afterCalls 3 Hrun); lia.
  - destruct (selectPageOrder 4 Demo.afterCalls) as [f'|] eqn:Hsel; [|done].
    exfalso.
    assert (Hsome : is_Some (selectPageOrder 4 Demo.afterCalls))
      by (rewrite Hsel; by eexists).
    apply (@selectPageOrder_succeeds_iff Demo.domain Demo.collaborators true
             ["a.tif"; "b.tif"] Demo.calls Demo.afterCalls 4 Hrun) in Hsome;
      lia.
Defined.
